(** * gitmanager: the request handlers of [access/views.py]

    A shallow embedding of the views that expose a course configuration
    (a tree of modules, chapters and exercises) as JSON and that serve
    model and template files of an exercise, together with the properties
    the specification states about them.

    Python values are modelled as follows.
    - [str] is [string], a sequence of characters; [s[:2]] is
      [substring 0 2 s]; [s.split('/')[-1]] is [List.last (split "/" s) ""].
    - A [dict] with string keys is an association list that keeps Python's
      insertion order: [d[k] = v] replaces the value of an existing key in
      place and appends a new key at the end.
    - JSON-like data (what [pydantic]'s [.dict()] returns and what
      [JsonResponse] receives) is the inductive type [json].
    - [.dict()] builds a new dictionary at every call.  A dictionary or a
      list that a view has just built and has not yet handed on has one
      owner, so it is a value here and [d[k] = v] is a functional update of
      the local variable.
    - The export writes [children] into the dictionary that a transform of
      [util.export] returns, which the view has not built.  [Module Obj]
      embeds the export a second time for that: with references to the
      dictionaries the store caches, a record of the writes that reach
      them, and collaborators that run in the monad.
    - The handlers run in a monad of state and exceptions over a [World]
      that holds the configuration store, the file system, the active
      translation and the log of the files opened so far.  A raised
      exception keeps the state reached, as in Python. *)

From stdpp Require Import gmap strings list.
From Stdlib Require Import Ascii String.

Local Open Scope string_scope.
Local Open Scope list_scope.
Local Set Warnings "-register-all".

(** ** Strings *)

Module PyStr.

(** [s.split(sep)] for a one-character separator: never the empty list. *)
Fixpoint split (sep : ascii) (s : string) : list string :=
  match s with
  | EmptyString => [EmptyString]
  | String c s' =>
      if Ascii.eqb c sep then EmptyString :: split sep s'
      else match split sep s' with
           | seg :: rest => String c seg :: rest
           | [] => [String c EmptyString]
           end
  end.

(** [path.split('/')[-1]] *)
Definition basename (path : string) : string :=
  List.last (split "/" path) EmptyString.

(** Python truthiness of a string: [if s:] *)
Definition truthy (s : string) : bool :=
  match s with
  | EmptyString => false
  | String _ _ => true
  end.

(** [s[:n]] *)
Definition prefix (n : nat) (s : string) : string := substring 0 n s.

(** [c] occurs in [s]. *)
Fixpoint occurs (c : ascii) (s : string) : bool :=
  match s with
  | EmptyString => false
  | String c' s' => Ascii.eqb c' c || occurs c s'
  end.

(** [sep.join(l)] *)
Fixpoint join (sep : ascii) (l : list string) : string :=
  match l with
  | [] => EmptyString
  | [x] => x
  | x :: rest => x +:+ String sep (join sep rest)
  end.

End PyStr.

(** ** JSON values and dictionaries *)

Inductive json : Type :=
| JNull
| JBool (b : bool)
| JNum (z : Z)
| JStr (s : string)
| JList (l : list json)
| JObj (d : list (string * json)).

Definition dict : Type := list (string * json).

Module PyDict.

(** [d.get(k)]: the value of the first entry with key [k]. *)
Fixpoint get {V : Type} (k : string) (d : list (string * V)) : option V :=
  match d with
  | [] => None
  | (k', v) :: d' => if String.eqb k' k then Some v else get k d'
  end.

(** [d[k] = v] *)
Fixpoint set {V : Type} (k : string) (v : V) (d : list (string * V))
  : list (string * V) :=
  match d with
  | [] => [(k, v)]
  | (k', v') :: d' =>
      if String.eqb k' k then (k, v) :: d' else (k', v') :: set k v d'
  end.

End PyDict.

(** Python truthiness of a value: [if v:] *)
Definition json_truthy (v : json) : bool :=
  match v with
  | JNull => false
  | JBool b => b
  | JNum z => negb (Z.eqb z 0)
  | JStr s => PyStr.truthy s
  | JList l => match l with [] => false | _ :: _ => true end
  | JObj d => match d with [] => false | _ :: _ => true end
  end.

(** [if o:] for an optional attribute ([None] is false). *)
Definition attr_truthy (o : option json) : bool :=
  match o with
  | None => false
  | Some v => json_truthy v
  end.

(** ** [pydantic] models

    A model instance is seen through its fields, in declaration order; a
    field whose value is [None] holds [None] here.  [pydantic_dict] is
    [m.dict(exclude=..., exclude_none=True)]: it builds a new dictionary. *)

Definition py_fields : Type := list (string * option json).

Definition excluded (exclude : list string) (k : string) : bool :=
  existsb (String.eqb k) exclude.

Fixpoint pydantic_dict (exclude : list string) (fs : py_fields) : dict :=
  match fs with
  | [] => []
  | (k, ov) :: fs' =>
      if excluded exclude k then pydantic_dict exclude fs'
      else match ov with
           | None => pydantic_dict exclude fs'
           | Some v => (k, v) :: pydantic_dict exclude fs'
           end
  end.

(** ** The course tree ([access.course]) *)

(** Modelled from the spec: the classes of [access.course], which are not
    among the sources.  A node is one of the closed set of variants Module,
    Chapter, Exercise and generic item. *)
Inductive NodeKind : Type := KModule | KChapter | KExercise | KGenericItem.

Module Node.

(** Modelled from the spec: a node of [access.course].  It has a [key], an
    ordered sequence of [children] and further attributes; an exercise
    carries [config] (the specification's hasConfig), which the export
    tests for truthiness. *)
Inductive t : Type :=
  Build {
    kind : NodeKind;
    key : string;
    config : option json;
    attrs : py_fields;
    children : list t
  }.

(** The fields [.dict()] walks through, [children] apart. *)
Definition fields (o : t) : py_fields :=
  ("key", Some (JStr (key o))) :: ("config", config o) :: attrs o.

(** [isinstance(o, Exercise)] and [isinstance(o, Chapter)] *)
Definition is_Exercise (o : t) : bool :=
  match kind o with KExercise => true | _ => false end.

Definition is_Chapter (o : t) : bool :=
  match kind o with KChapter => true | _ => false end.

End Node.

Module Course.

(** Modelled from the spec: the course description of [access.course] held
    in [CourseConfig.data]: its [name], its other attributes (the static
    directory among them) and the ordered [modules]. *)
Record t : Type :=
  Build {
    name : option json;
    attrs : py_fields;
    modules : list Node.t
  }.

Definition fields (c : t) : py_fields := ("name", name c) :: attrs c.

End Course.

Module ExerciseDict.

(** Modelled from the spec: the dictionary of one exercise, as the methods
    [exercise_data], [exercise_config] and [get_exercise_list] of
    [access.config] hand it out.  The two file lists the views read are
    ordered sequences of relative paths, or the key is missing; every other
    key is kept in [entries]. *)
Record t : Type :=
  Build {
    model_files : option (list string);
    template_files : option (list string);
    entries : dict
  }.

(** [entry[name]]; [None] stands for [KeyError]. *)
Definition getitem (e : t) (name : string) : option json :=
  if String.eqb name "model_files" then
    (fun ps => JList (map JStr ps)) <$> model_files e
  else if String.eqb name "template_files" then
    (fun ps => JList (map JStr ps)) <$> template_files e
  else PyDict.get name (entries e).

End ExerciseDict.

Module CourseConfig.

(** Modelled from the spec: [access.config.CourseConfig], which is not
    among the sources.  The views use the attributes [key], [lang] (the
    default language) and [data] and the methods [exercise_config(key)],
    [exercise_data(key, lang=...)] and [get_exercise_list()]; the two
    lookups answer [None] for an exercise they do not have. *)
Record t : Type :=
  Build {
    key : string;
    lang : string;
    data : Course.t;
    exercise_config : string -> option ExerciseDict.t;
    exercise_data : string -> option string -> option ExerciseDict.t;
    get_exercise_list : list ExerciseDict.t
  }.

End CourseConfig.

(** ** Requests, responses and exceptions *)

Record HttpRequest : Type :=
  { GET : gmap string string;
    is_ajax : bool;
    base_url : string }.

Inductive exn : Type :=
| Http404 (detail : option string) (cause : option exn)
| FileNotFoundError (path : string)
| IsADirectoryError (path : string)
| NotADirectoryError (path : string)
| PermissionError (path : string)
| UnicodeDecodeError
| KeyError (k : string)
| TypeError
| ValueError.

(** What a template is rendered with. *)
Inductive context_value : Type :=
| CtxConfigs (cs : list CourseConfig.t)
| CtxCourse (c : Course.t)
| CtxExercises (es : list ExerciseDict.t)
| CtxStr (s : string).

Inductive Response : Type :=
| JsonResponse (data : json)
| HttpResponse (content : string) (content_type : string)
| render (template : string) (context : list (string * context_value)).

(** ** The world the handlers run in *)

(** What [open(path)] and [f.read()] meet at a path.  A path that the file
    system does not list has nothing at it and nothing in its way. *)
Inductive file_entry : Type :=
| RegularFile (raw : string)
| Directory
| UnderRegularFile
| Unreadable
| Undecodable.

Record World : Type :=
  { courses : gmap string CourseConfig.t;
    files : gmap string file_entry;
    active_language : option string;
    opened : list string }.

Inductive Outcome (A : Type) : Type :=
| Return (a : A)
| Raise (e : exn).
Arguments Return {A} a.
Arguments Raise {A} e.

Definition M (A : Type) : Type := World -> Outcome A * World.

Definition ret {A} (a : A) : M A := fun w => (Return a, w).

Definition bind {A B} (m : M A) (f : A -> M B) : M B :=
  fun w =>
    match m w with
    | (Return a, w') => f a w'
    | (Raise e, w') => (Raise e, w')
    end.

Definition raise {A} (e : exn) : M A := fun w => (Raise e, w).

(** [try: m  except FileNotFoundError as error: h error] *)
Definition try_except_FileNotFoundError {A} (m : M A) (h : exn -> M A) : M A :=
  fun w =>
    match m w with
    | (Raise (FileNotFoundError p), w') => h (FileNotFoundError p) w'
    | r => r
    end.

Declare Scope py_scope.
Delimit Scope py_scope with py.
Notation "x <- m ;; k" := (bind m (fun x => k))
  (at level 100, m at next level, right associativity) : py_scope.
Local Open Scope py_scope.

(** The status the HTTP boundary answers with. *)
Definition status_code {A} (o : Outcome A) : nat :=
  match o with
  | Return _ => 200
  | Raise (Http404 _ _) => 404
  | Raise _ => 500
  end.

(** Modelled from the spec: [CourseConfig.get(course_key)] of
    [access.config] returns the cached tree of a known key and [None], not
    an error, for an unknown one. *)
Definition CourseConfig_get (course_key : string) : M (option CourseConfig.t) :=
  fun w => (Return (courses w !! course_key), w).

(** Modelled from the spec: [CourseConfig.all()] of [access.config]
    returns every course configuration of the store. *)
Definition CourseConfig_all : M (list CourseConfig.t) :=
  fun w => (Return ((map_to_list (courses w)).*2), w).

Definition log_opened (path : string) (w : World) : World :=
  {| courses := courses w; files := files w;
     active_language := active_language w;
     opened := opened w ++ [path] |}.

Definition set_active_language (lang_code : string) (w : World) : World :=
  {| courses := courses w; files := files w;
     active_language := Some lang_code;
     opened := opened w |}.

(** Reading in text mode, as [open(path)] does: a carriage return, alone
    or before a line feed, is read as one line feed. *)
Fixpoint universal_newlines (raw : string) : string :=
  match raw with
  | EmptyString => EmptyString
  | String c rest =>
      if Ascii.eqb c "013" then
        match rest with
        | String c' rest' =>
            if Ascii.eqb c' "010" then String "010" (universal_newlines rest')
            else String "010" (universal_newlines rest)
        | EmptyString => String "010" EmptyString
        end
      else String c (universal_newlines rest)
  end.

(** What [open(path)] followed by [f.read()] gives for what is at [path]:
    the text of a regular file, [FileNotFoundError] where nothing is, and
    the other errors of the operating system and of the decoder. *)
Definition open_result (path : string) (at_path : option file_entry)
  : Outcome string :=
  match at_path with
  | Some (RegularFile raw) => Return (universal_newlines raw)
  | Some Directory => Raise (IsADirectoryError path)
  | Some UnderRegularFile => Raise (NotADirectoryError path)
  | Some Unreadable => Raise (PermissionError path)
  | Some Undecodable => Raise UnicodeDecodeError
  | None => Raise (FileNotFoundError path)
  end.

(** [with open(path) as f: content = f.read()]: the attempt is logged. *)
Definition open_read (path : string) : M string :=
  fun w => (open_result path (files w !! path), log_opened path w).

(** [translation.activate(lang_code)] *)
Definition translation_activate (lang_code : string) : M unit :=
  fun w => (Return tt, set_active_language lang_code w).

(** ** The views *)

Section Views.

(** Collaborators outside [access/views.py]: Django's [reverse] and the
    joining done by [request.build_absolute_uri], [CourseConfig.path_to]
    and the two transforms of [util.export]. *)
Variable reverse : string -> list string -> string.
Variable absolute_uri : string -> string -> string.
Variable path_to : string -> string -> string.
Variable export_exercise :
  HttpRequest -> CourseConfig.t -> option ExerciseDict.t -> dict -> dict.
Variable export_chapter : HttpRequest -> CourseConfig.t -> dict -> dict.

Definition build_absolute_uri (request : HttpRequest) (location : string)
  : string :=
  absolute_uri (base_url request) location.

Definition json_of_attr (o : option json) : json :=
  match o with
  | Some v => v
  | None => JNull
  end.

(** *** [_filter_fields] *)

Fixpoint pick_loop (entry : ExerciseDict.t) (pick_fields : list string)
  (new_entry : dict) : M dict :=
  match pick_fields with
  | [] => ret new_entry
  | name :: rest =>
      match ExerciseDict.getitem entry name with
      | Some v => pick_loop entry rest (PyDict.set name v new_entry)
      | None => raise (KeyError name)
      end
  end.

Fixpoint entries_loop (dict_list : list ExerciseDict.t)
  (pick_fields : list string) (result : list dict) : M (list dict) :=
  match dict_list with
  | [] => ret result
  | entry :: rest =>
      new_entry <- pick_loop entry pick_fields [] ;;
      entries_loop rest pick_fields (result ++ [new_entry])
  end.

Definition _filter_fields (dict_list : list ExerciseDict.t)
  (pick_fields : list string) : M (list dict) :=
  entries_loop dict_list pick_fields [].

(** *** [index] and [course] *)

Definition index (request : HttpRequest) : M Response :=
  course_configs <- CourseConfig_all ;;
  if is_ajax request then
    ret (JsonResponse (JObj
      [("ready", JBool true);
       ("courses",
        JList (map (fun c =>
                 JObj [("key", JStr (CourseConfig.key c));
                       ("name", json_of_attr (Course.name (CourseConfig.data c)))])
               course_configs))]))
  else
    ret (render "access/ready.html" [("courses", CtxConfigs course_configs)]).

Definition course (request : HttpRequest) (course_key : string) : M Response :=
  course_config <- CourseConfig_get course_key ;;
  match course_config with
  | None => raise (Http404 None None)
  | Some course_config =>
      let exercises := CourseConfig.get_exercise_list course_config in
      if is_ajax request then
        picked <- _filter_fields exercises ["key"; "title"] ;;
        ret (JsonResponse (JObj
          [("ready", JBool true);
           ("course_name",
            json_of_attr (Course.name (CourseConfig.data course_config)));
           ("exercises", JList (map JObj picked))]))
      else
        let render_context :=
          [("course", CtxCourse (CourseConfig.data course_config));
           ("exercises", CtxExercises exercises);
           ("plus_config_url",
            CtxStr (build_absolute_uri request
                      (reverse "aplus-json" [CourseConfig.key course_config])))] in
        let render_context :=
          PyDict.set "build_log_url"
            (CtxStr (build_absolute_uri request
                       (reverse "build-log-json" [course_key])))
            render_context in
        ret (render "access/course.html" render_context)
  end.

(** *** [_get_course_exercise_lang] *)

(** [if s:] for an optional string ([if lang_code:], [if path:]). *)
Definition str_truthy (o : option string) : bool :=
  match o with
  | Some s => PyStr.truthy s
  | None => false
  end.

(** "Keep only en from en-gb if the long language format is used":
    [if lang_code: lang_code = lang_code[:2]] *)
Definition keep_short (lang_code : option string) : option string :=
  if str_truthy lang_code then PyStr.prefix 2 <$> lang_code else lang_code.

(** [if not lang_code: lang_code = config.lang] *)
Definition or_course_lang (lang_code : option string) (config : CourseConfig.t)
  : string :=
  if negb (str_truthy lang_code) then CourseConfig.lang config
  else default "" lang_code.

Definition _get_course_exercise_lang (course_key exercise_key : string)
  (lang_code : option string)
  : M (CourseConfig.t * ExerciseDict.t * string) :=
  let lang_code := keep_short lang_code in
  config <- CourseConfig_get course_key ;;
  match config with
  | None => raise (Http404 None None)
  | Some config =>
      match CourseConfig.exercise_data config exercise_key lang_code with
      | None => raise (Http404 None None)
      | Some exercise =>
          let lang_code := or_course_lang lang_code config in
          _ <- translation_activate lang_code ;;
          ret (config, exercise, lang_code)
      end
  end.

(** *** [exercise_model] and [exercise_template] *)

(** The local helper of both views.  [parameter] is the variable of the
    enclosing view; the loop binds [name] anew for every entry. *)
Definition find_name (parameter : string) (paths : list string)
  (name : string) : option string :=
  let models := map (fun path => (path, PyStr.basename path)) paths in
  (fix loop (models : list (string * string)) : option string :=
     match models with
     | [] => None
     | (path, name) :: rest =>
         if String.eqb name parameter then Some path else loop rest
     end) models.

Definition exercise_model (request : HttpRequest)
  (course_key exercise_key parameter : string) : M Response :=
  let lang := GET request !! "lang" in
  r <- _get_course_exercise_lang course_key exercise_key lang ;;
  let '(course, exercise, lang) := r in
  let path :=
    match ExerciseDict.model_files exercise with
    | Some model_files => find_name parameter model_files parameter
    | None => None
    end in
  if str_truthy path then
    content <- try_except_FileNotFoundError
                 (open_read (path_to (CourseConfig.key course) (default "" path)))
                 (fun error => raise (Http404 (Some "Model file missing") (Some error))) ;;
    ret (HttpResponse content "text/plain")
  else raise (Http404 None None).

Definition exercise_template (request : HttpRequest)
  (course_key exercise_key parameter : string) : M Response :=
  let lang := GET request !! "lang" in
  r <- _get_course_exercise_lang course_key exercise_key lang ;;
  let '(course, exercise, lang) := r in
  let path :=
    match ExerciseDict.template_files exercise with
    | Some template_files => find_name parameter template_files parameter
    | None => None
    end in
  if str_truthy path then
    content <- try_except_FileNotFoundError
                 (open_read (path_to (CourseConfig.key course) (default "" path)))
                 (fun error => raise (Http404 (Some "Template file missing") (Some error))) ;;
    ret (HttpResponse content "text/plain")
  else raise (Http404 None None).

(** *** [aplus_json] *)

Fixpoint children_recursion (request : HttpRequest) (config : CourseConfig.t)
  (parent : Node.t) {struct parent} : list json :=
  (fix loop (os : list Node.t) (result : list json) {struct os} : list json :=
     match os with
     | [] => result
     | o :: rest =>
         let of_ := pydantic_dict ["children"] (Node.fields o) in
         let data :=
           if Node.is_Exercise o && attr_truthy (Node.config o) then
             let exercise := CourseConfig.exercise_config config (Node.key o) in
             export_exercise request config exercise of_
           else if Node.is_Chapter o then export_chapter request config of_
           else of_ in
         let data :=
           PyDict.set "children"
             (JList (children_recursion request config o)) data in
         loop rest (result ++ [JObj data])
     end) (Node.children parent) [].

Fixpoint modules_loop (request : HttpRequest) (config : CourseConfig.t)
  (ms : list Node.t) (modules : list json) : list json :=
  match ms with
  | [] => modules
  | m :: rest =>
      let mf := pydantic_dict ["children"] (Node.fields m) in
      let mf :=
        PyDict.set "children" (JList (children_recursion request config m)) mf in
      modules_loop request config rest (modules ++ [JObj mf])
  end.

Definition aplus_json (request : HttpRequest) (course_key : string)
  : M Response :=
  config <- CourseConfig_get course_key ;;
  match config with
  | None => raise (Http404 None None)
  | Some config =>
      let data :=
        pydantic_dict ["modules"; "static_dir"]
          (Course.fields (CourseConfig.data config)) in
      let modules :=
        modules_loop request config
          (Course.modules (CourseConfig.data config)) [] in
      let data := PyDict.set "modules" (JList modules) data in
      let data :=
        PyDict.set "build_log_url"
          (JStr (build_absolute_uri request
                   (reverse "build-log-json" [course_key]))) data in
      ret (JsonResponse (JObj data))
  end.

End Views.

(** ** The export, with shared objects and collaborators that have effects

    The embedding of [aplus_json] above takes the transforms of
    [util.export] and the URL helpers as functions and every dictionary as
    a value.  The one below does not: the collaborators run in the monad,
    so they can read and change the world, and a dictionary they return can
    be one of the store's own, in which case the write of line 143,
    [data["children"] = ...], lands in the store. *)

(** The monad of the views above, under a name that stays visible. *)
Definition WorldM (A : Type) : Type := M A.

Module Obj.

(** A Python value of the export.  A list or a dictionary that a view has
    just built has one owner and is held by value.  [PCached c k] is a
    reference to the dictionary the store caches for exercise [k] of
    course [c], the one [config.exercise_config(k)] hands out. *)
Inductive pyval : Type :=
| PJson (j : json)
| PList (l : list pyval)
| PDict (d : list (string * pyval))
| PCached (course_key exercise_key : string).

Definition pydict : Type := list (string * pyval).

(** [store[course_key][exercise_key][field] = value]: a write to a
    dictionary of the store. *)
Record cache_write : Type :=
  { cw_course : string;
    cw_exercise : string;
    cw_field : string;
    cw_value : pyval }.

(** The world, and the writes made so far to dictionaries of the store. *)
Record EWorld : Type :=
  { world : World;
    cache_writes : list cache_write }.

Definition M (A : Type) : Type := EWorld -> Outcome A * EWorld.

Definition ret {A} (a : A) : M A := fun ew => (Return a, ew).

Definition bind {A B} (m : M A) (f : A -> M B) : M B :=
  fun ew =>
    match m ew with
    | (Return a, ew') => f a ew'
    | (Raise e, ew') => (Raise e, ew')
    end.

Definition raise {A} (e : exn) : M A := fun ew => (Raise e, ew).

(** A computation on the world, run where the writes are kept as well. *)
Definition lift {A} (m : WorldM A) : M A :=
  fun ew =>
    match m (world ew) with
    | (o, w') => (o, {| world := w'; cache_writes := cache_writes ew |})
    end.

Declare Scope obj_scope.
Delimit Scope obj_scope with obj.
Notation "x <- m ;; k" := (bind m (fun x => k))
  (at level 100, m at next level, right associativity) : obj_scope.
Local Open Scope obj_scope.

Definition embed_dict (d : dict) : pydict :=
  map (fun kv => (kv.1, PJson kv.2)) d.

(** The dictionary is not one of the store's. *)
Definition owned (v : pyval) : Prop :=
  match v with
  | PCached _ _ => False
  | _ => True
  end.

(** [data[k] = v].  A dictionary held by value is updated; a dictionary of
    the store is written in the store; anything else takes no item. *)
Definition setitem (data : pyval) (k : string) (v : pyval) : M pyval :=
  fun ew =>
    match data with
    | PDict d => (Return (PDict (PyDict.set k v d)), ew)
    | PJson (JObj d) => (Return (PDict (PyDict.set k v (embed_dict d))), ew)
    | PCached c e =>
        (Return (PCached c e),
         {| world := world ew;
            cache_writes :=
              cache_writes ew ++
              [{| cw_course := c; cw_exercise := e;
                  cw_field := k; cw_value := v |}] |})
    | _ => (Raise TypeError, ew)
    end.

(** The dictionary the store holds for an exercise, as it was loaded. *)
Definition loaded_dict (e : ExerciseDict.t) : pydict :=
  match ExerciseDict.model_files e with
  | Some ps => [("model_files", PJson (JList (map JStr ps)))]
  | None => []
  end ++
  match ExerciseDict.template_files e with
  | Some ps => [("template_files", PJson (JList (map JStr ps)))]
  | None => []
  end ++
  embed_dict (ExerciseDict.entries e).

(** The writes of [ws] that went to exercise [e] of course [c], replayed
    in order on [d]. *)
Fixpoint replay (c e : string) (ws : list cache_write) (d : pydict) : pydict :=
  match ws with
  | [] => d
  | w :: ws' =>
      if String.eqb (cw_course w) c && String.eqb (cw_exercise w) e then
        replay c e ws' (PyDict.set (cw_field w) (cw_value w) d)
      else replay c e ws' d
  end.

(** What [PCached c e] refers to at present. *)
Definition cached_dict (ew : EWorld) (c e : string) : option pydict :=
  match courses (world ew) !! c with
  | Some config =>
      match CourseConfig.exercise_config config e with
      | Some record => Some (replay c e (cache_writes ew) (loaded_dict record))
      | None => None
      end
  | None => None
  end.

(** The JSON of a value.  Following a reference costs fuel: a dictionary
    of the store that holds itself has no JSON. *)
Fixpoint serialize (fuel : nat) (cached : string -> string -> option pydict)
  (v : pyval) {struct fuel} : option json :=
  match fuel with
  | O => None
  | S fuel' =>
      (fix value (v : pyval) : option json :=
         match v with
         | PJson j => Some j
         | PList l =>
             JList <$>
               (fix items (l : list pyval) : option (list json) :=
                  match l with
                  | [] => Some []
                  | x :: l' =>
                      match value x, items l' with
                      | Some j, Some js => Some (j :: js)
                      | _, _ => None
                      end
                  end) l
         | PDict d =>
             JObj <$>
               (fix entries (d : list (string * pyval))
                  : option (list (string * json)) :=
                  match d with
                  | [] => Some []
                  | (k, x) :: d' =>
                      match value x, entries d' with
                      | Some j, Some js => Some ((k, j) :: js)
                      | _, _ => None
                      end
                  end) d
         | PCached c e =>
             match cached c e with
             | Some d => serialize fuel' cached (PDict d)
             | None => None
             end
         end) v
  end.

(** [JsonResponse(data, encoder=JSONEncoder)]: the encoder refuses a
    circular reference with [ValueError]. *)
Definition json_response (data : pyval) : M Response :=
  fun ew =>
    match serialize (2 + List.length (cache_writes ew)) (cached_dict ew) data with
    | Some j => (Return (JsonResponse j), ew)
    | None => (Raise ValueError, ew)
    end.

(** [config.exercise_config(key)]: a reference to the dictionary of the
    store, or [None]. *)
Definition exercise_ref (config : CourseConfig.t) (key : string)
  : option pyval :=
  match CourseConfig.exercise_config config key with
  | Some _ => Some (PCached (CourseConfig.key config) key)
  | None => None
  end.

Section Views.

(** The collaborators, as computations: Django's [reverse] and the joining
    of [request.build_absolute_uri], and the transforms of [util.export],
    which get the reference to the dictionary of the exercise and the new
    dictionary [of] and return a dictionary. *)
Variable reverse : string -> list string -> M string.
Variable absolute_uri : string -> string -> M string.
Variable export_exercise :
  HttpRequest -> CourseConfig.t -> option pyval -> pyval -> M pyval.
Variable export_chapter : HttpRequest -> CourseConfig.t -> pyval -> M pyval.

Fixpoint children_recursion (request : HttpRequest) (config : CourseConfig.t)
  (parent : Node.t) {struct parent} : M (list pyval) :=
  (fix loop (os : list Node.t) (result : list pyval) {struct os}
     : M (list pyval) :=
     match os with
     | [] => ret result
     | o :: rest =>
         let of_ := PDict (embed_dict (pydantic_dict ["children"] (Node.fields o))) in
         data <-
           (if Node.is_Exercise o && attr_truthy (Node.config o) then
              let exercise := exercise_ref config (Node.key o) in
              export_exercise request config exercise of_
            else if Node.is_Chapter o then export_chapter request config of_
            else ret of_) ;;
         children <- children_recursion request config o ;;
         data <- setitem data "children" (PList children) ;;
         loop rest (result ++ [data])
     end) (Node.children parent) [].

Fixpoint modules_loop (request : HttpRequest) (config : CourseConfig.t)
  (ms : list Node.t) (modules : list pyval) : M (list pyval) :=
  match ms with
  | [] => ret modules
  | m :: rest =>
      let mf := PDict (embed_dict (pydantic_dict ["children"] (Node.fields m))) in
      children <- children_recursion request config m ;;
      mf <- setitem mf "children" (PList children) ;;
      modules_loop request config rest (modules ++ [mf])
  end.

Definition aplus_json (request : HttpRequest) (course_key : string)
  : M Response :=
  config <- lift (CourseConfig_get course_key) ;;
  match config with
  | None => raise (Http404 None None)
  | Some config =>
      let data :=
        PDict (embed_dict
                 (pydantic_dict ["modules"; "static_dir"]
                    (Course.fields (CourseConfig.data config)))) in
      modules <-
        modules_loop request config
          (Course.modules (CourseConfig.data config)) [] ;;
      data <- setitem data "modules" (PList modules) ;;
      location <- reverse "build-log-json" [course_key] ;;
      url <- absolute_uri (base_url request) location ;;
      data <- setitem data "build_log_url" (PJson (JStr url)) ;;
      json_response data
  end.

End Views.

(** The store is as before: the same courses, and no new write to a
    dictionary of the store. *)
Definition store_kept (ew' ew : EWorld) : Prop :=
  courses (world ew') = courses (world ew) /\
  cache_writes ew' = cache_writes ew.

(** All that a request can read is the same in the two worlds: the store
    with the writes made to it, the files and the active translation.  The
    log of the files opened so far is left out. *)
Definition same_inputs (ew ew' : EWorld) : Prop :=
  courses (world ew) = courses (world ew') /\
  files (world ew) = files (world ew') /\
  active_language (world ew) = active_language (world ew') /\
  cache_writes ew = cache_writes ew'.

(** [m] leaves every world in relation [R] with the world it started in,
    and what it returns satisfies [P]. *)
Definition Keeps {A} (R : EWorld -> EWorld -> Prop) (P : A -> Prop) (m : M A)
  : Prop :=
  (forall ew, R (m ew).2 ew) /\
  (forall ew a, (m ew).1 = Return a -> P a).

(** The outcome of [m] depends on nothing but what [same_inputs] keeps,
    and worlds that agree on it still do after [m]. *)
Definition Reads {A} (m : M A) : Prop :=
  forall ew ew',
    same_inputs ew ew' ->
    (m ew).1 = (m ew').1 /\ same_inputs (m ew).2 (m ew').2.

(** The dictionary of JSON values that a value holds, if it is one. *)
Fixpoint plain_entries (d : pydict) : option dict :=
  match d with
  | [] => Some []
  | (k, PJson j) :: d' =>
      match plain_entries d' with
      | Some rest => Some ((k, j) :: rest)
      | None => None
      end
  | _ => None
  end.

Definition plain_dict (v : pyval) : option dict :=
  match v with
  | PDict d => plain_entries d
  | PJson (JObj d) => Some d
  | _ => None
  end.

(** The record behind a reference, as the store loaded it. *)
Definition deref (config : CourseConfig.t) (exercise : option pyval)
  : option ExerciseDict.t :=
  match exercise with
  | Some (PCached _ e) => CourseConfig.exercise_config config e
  | _ => None
  end.

(** Collaborators without effects: a function of the arguments, the
    transforms answering with a new dictionary. *)
Definition pure2 {A B C} (f : A -> B -> C) : A -> B -> M C :=
  fun a b => ret (f a b).

Definition pure_export_exercise
  (f : HttpRequest -> CourseConfig.t -> option ExerciseDict.t -> dict -> dict)
  : HttpRequest -> CourseConfig.t -> option pyval -> pyval -> M pyval :=
  fun request config exercise of_ =>
    match plain_dict of_ with
    | Some d => ret (PDict (embed_dict (f request config (deref config exercise) d)))
    | None => raise TypeError
    end.

Definition pure_export_chapter
  (f : HttpRequest -> CourseConfig.t -> dict -> dict)
  : HttpRequest -> CourseConfig.t -> pyval -> M pyval :=
  fun request config of_ =>
    match plain_dict of_ with
    | Some d => ret (PDict (embed_dict (f request config d)))
    | None => raise TypeError
    end.

(** [v] holds no reference and its JSON is [j]. *)
Definition Denotes (v : pyval) (j : json) : Prop :=
  forall fuel cached, serialize (S fuel) cached v = Some j.

(** An entry of a dictionary of values and an entry of a JSON object: the
    same key, and the value denotes the JSON. *)
Definition entry_denotes (kv : string * pyval) (kj : string * json) : Prop :=
  kv.1 = kj.1 /\ Denotes kv.2 kj.2.

(** The four collaborators keep [R], and the transforms return a
    dictionary that is not the store's when [of] is not. *)
Definition collaborators_keep (R : EWorld -> EWorld -> Prop)
  (reverse : string -> list string -> M string)
  (absolute_uri : string -> string -> M string)
  (export_exercise :
     HttpRequest -> CourseConfig.t -> option pyval -> pyval -> M pyval)
  (export_chapter : HttpRequest -> CourseConfig.t -> pyval -> M pyval)
  : Prop :=
  (forall name args, Keeps R (fun _ => True) (reverse name args)) /\
  (forall base location, Keeps R (fun _ => True) (absolute_uri base location)) /\
  (forall request config exercise of_,
     owned of_ -> Keeps R owned (export_exercise request config exercise of_)) /\
  (forall request config of_,
     owned of_ -> Keeps R owned (export_chapter request config of_)).

(** The four collaborators answer from their arguments and from what
    [same_inputs] keeps. *)
Definition collaborators_read
  (reverse : string -> list string -> M string)
  (absolute_uri : string -> string -> M string)
  (export_exercise :
     HttpRequest -> CourseConfig.t -> option pyval -> pyval -> M pyval)
  (export_chapter : HttpRequest -> CourseConfig.t -> pyval -> M pyval)
  : Prop :=
  (forall name args, Reads (reverse name args)) /\
  (forall base location, Reads (absolute_uri base location)) /\
  (forall request config exercise of_,
     Reads (export_exercise request config exercise of_)) /\
  (forall request config of_, Reads (export_chapter request config of_)).

End Obj.


(** ** Names for the steps of the views

    The definitions below name parts of the bodies above, so that the
    properties can speak of them. *)

(** The two views differ in the list they read and in the detail of the
    error for a file that is declared and missing. *)
Inductive FileKind : Type := ModelFile | TemplateFile.

Definition view (path_to : string -> string -> string) (kind : FileKind)
  : HttpRequest -> string -> string -> string -> M Response :=
  match kind with
  | ModelFile => exercise_model path_to
  | TemplateFile => exercise_template path_to
  end.

Definition file_list (kind : FileKind) : ExerciseDict.t -> option (list string) :=
  match kind with
  | ModelFile => ExerciseDict.model_files
  | TemplateFile => ExerciseDict.template_files
  end.

Definition missing_detail (kind : FileKind) : string :=
  match kind with
  | ModelFile => "Model file missing"
  | TemplateFile => "Template file missing"
  end.

(** What the [try] ... [except FileNotFoundError] ... of the views makes of
    the outcome of [open] and [read]: the file as plain text, [Http404] with
    the detail and the cause for [FileNotFoundError], and any other error
    as it is. *)
Definition answer_of (detail : string) (o : Outcome string) : Outcome Response :=
  match o with
  | Return content => Return (HttpResponse content "text/plain")
  | Raise (FileNotFoundError file) =>
      Raise (Http404 (Some detail) (Some (FileNotFoundError file)))
  | Raise e => Raise e
  end.

(** The path the view settles on: [None] until a list is declared and an
    entry matches. *)
Definition located (kind : FileKind) (exercise : ExerciseDict.t)
  (parameter : string) : option string :=
  match file_list kind exercise with
  | Some paths => find_name parameter paths parameter
  | None => None
  end.

(** The [if]/[elif]/[else] of the loop of [children_recursion]. *)
Definition transform
  (export_exercise :
     HttpRequest -> CourseConfig.t -> option ExerciseDict.t -> dict -> dict)
  (export_chapter : HttpRequest -> CourseConfig.t -> dict -> dict)
  (request : HttpRequest) (config : CourseConfig.t)
  (o : Node.t) (of_ : dict) : dict :=
  if Node.is_Exercise o && attr_truthy (Node.config o) then
    export_exercise request config
      (CourseConfig.exercise_config config (Node.key o)) of_
  else if Node.is_Chapter o then export_chapter request config of_
  else of_.

(** One turn of the loop of [children_recursion]: what is appended for [o]. *)
Definition export_child
  (export_exercise :
     HttpRequest -> CourseConfig.t -> option ExerciseDict.t -> dict -> dict)
  (export_chapter : HttpRequest -> CourseConfig.t -> dict -> dict)
  (request : HttpRequest) (config : CourseConfig.t) (o : Node.t) : json :=
  JObj (PyDict.set "children"
          (JList (children_recursion export_exercise export_chapter
                    request config o))
          (transform export_exercise export_chapter request config o
             (pydantic_dict ["children"] (Node.fields o)))).

(** One turn of the loop over [config.data.modules]. *)
Definition export_module
  (export_exercise :
     HttpRequest -> CourseConfig.t -> option ExerciseDict.t -> dict -> dict)
  (export_chapter : HttpRequest -> CourseConfig.t -> dict -> dict)
  (request : HttpRequest) (config : CourseConfig.t) (m : Node.t) : json :=
  JObj (PyDict.set "children"
          (JList (children_recursion export_exercise export_chapter
                    request config m))
          (pydantic_dict ["children"] (Node.fields m))).

(** A computation that leaves the configuration store as it found it. *)
Definition preserves_store {A} (m : M A) : Prop :=
  forall w, courses (m w).2 = courses w.

(** ** The specification's reading of three steps

    The next two definitions follow the words of the specification, not the
    code; they are what the code is compared with. *)

(** "If requested (normalized) is present, return it unconditionally ...
    If requested is absent, return default." *)
Definition LanguageResolver_resolve (requested : option string)
  (default_lang : string) : string :=
  match requested with
  | Some code => PyStr.prefix 2 code
  | None => default_lang
  end.

(** "Exercise nodes with hasConfig = true load that exercise's full
    per-language data record (keyed by the node's key and the context's
    resolved language)": the transform of one child, the record taken from
    [exercise_data] at the resolved language. *)
Definition transform_spec
  (export_exercise :
     HttpRequest -> CourseConfig.t -> option ExerciseDict.t -> dict -> dict)
  (export_chapter : HttpRequest -> CourseConfig.t -> dict -> dict)
  (languageCode : string) (request : HttpRequest) (config : CourseConfig.t)
  (o : Node.t) (of_ : dict) : dict :=
  if Node.is_Exercise o && attr_truthy (Node.config o) then
    export_exercise request config
      (CourseConfig.exercise_data config (Node.key o) (Some languageCode)) of_
  else if Node.is_Chapter o then export_chapter request config of_
  else of_.

(** "Declared file missing on disk": no file is at the path.  That is so
    where the file system lists nothing, and where a regular file stands in
    the way of the path. *)
Definition missing_on_disk (at_path : option file_entry) : bool :=
  match at_path with
  | None => true
  | Some UnderRegularFile => true
  | Some _ => false
  end.

(** ** A small course to run the views on *)

Module Demo.

Definition reverse (name : string) (args : list string) : string :=
  "/" +:+ String.concat "/" args +:+ "/" +:+ name.

Definition absolute_uri (base location : string) : string := base +:+ location.

Definition path_to (course_key path : string) : string :=
  "/srv/courses/" +:+ course_key +:+ "/" +:+ path.

(** Merges the entries of the exercise record into the node's dictionary. *)
Definition export_exercise (request : HttpRequest) (config : CourseConfig.t)
  (exercise : option ExerciseDict.t) (of_ : dict) : dict :=
  match exercise with
  | Some e =>
      fold_left (fun d kv => PyDict.set kv.1 kv.2 d) (ExerciseDict.entries e) of_
  | None => of_
  end.

Definition export_chapter (request : HttpRequest) (config : CourseConfig.t)
  (of_ : dict) : dict :=
  PyDict.set "static_content_url"
    (JStr (absolute_uri (base_url request)
             ("/static/" +:+ CourseConfig.key config))) of_.

Definition ex1 : Node.t := Node.Build KExercise "ex1" None [] [].
Definition ex2 : Node.t :=
  Node.Build KExercise "ex2" (Some (JStr "ex2/config.yaml"))
    [("max_points", Some (JNum 10)); ("category", None)] [].
Definition ch1 : Node.t :=
  Node.Build KChapter "ch1" None [("static_content", Some (JStr "ch1.html"))]
    [ex2].
Definition M1 : Node.t := Node.Build KModule "M1" None [] [ex1; ch1].

Definition course_data : Course.t :=
  Course.Build (Some (JStr "Demo course"))
    [("static_dir", Some (JStr "_build/html"));
     ("lang", Some (JStr "fi"));
     ("contact", None)]
    [M1].

Definition ex1_dict : ExerciseDict.t :=
  ExerciseDict.Build (Some ["files/a.py"; "fi/a.py"; "files/A.py"]) None
    [("key", JStr "ex1"); ("title", JStr "Exercise 1")].

Definition ex2_root : ExerciseDict.t :=
  ExerciseDict.Build None (Some ["tpl/main.c"])
    [("key", JStr "ex2");
     ("title", JObj [("en", JStr "Hello"); ("fi", JStr "Hei")])].

Definition ex2_lang (lang : string) : ExerciseDict.t :=
  ExerciseDict.Build None (Some ["tpl/main.c"])
    [("key", JStr "ex2");
     ("title", JStr (if String.eqb lang "en" then "Hello" else "Hei"))].

Definition config : CourseConfig.t :=
  CourseConfig.Build "demo" "fi" course_data
    (fun exercise_key =>
       if String.eqb exercise_key "ex1" then Some ex1_dict
       else if String.eqb exercise_key "ex2" then Some ex2_root
       else None)
    (fun exercise_key lang =>
       if String.eqb exercise_key "ex1" then Some ex1_dict
       else if String.eqb exercise_key "ex2" then
         Some (ex2_lang (match lang with
                         | Some l => if PyStr.truthy l then l else "fi"
                         | None => "fi"
                         end))
       else None)
    [ex1_dict; ex2_lang "fi"].

Definition world : World :=
  {| courses := {[ "demo" := config ]};
     files := {[ "/srv/courses/demo/files/a.py" := RegularFile "print(1)" ]};
     active_language := None;
     opened := [] |}.

Definition request : HttpRequest :=
  {| GET := ∅; is_ajax := true; base_url := "https://x" |}.

Definition request_lang (code : string) : HttpRequest :=
  {| GET := {[ "lang" := code ]}; is_ajax := true; base_url := "https://x" |}.

End Demo.

(** ** Names for the properties of the listings and of the tree *)

(** [entry] has every one of the picked fields: no [entry[name]] of
    [_filter_fields] raises [KeyError]. *)
Definition complete (pick_fields : list string) (entry : ExerciseDict.t)
  : Prop :=
  Forall (fun name => is_Some (ExerciseDict.getitem entry name)) pick_fields.

(** [d] holds the picked fields of [entry], with the values of [entry], and
    no other key. *)
Definition picked_from (pick_fields : list string) (entry : ExerciseDict.t)
  (d : dict) : Prop :=
  (forall name, name ∈ pick_fields ->
     PyDict.get name d = ExerciseDict.getitem entry name) /\
  (forall k, k ∉ pick_fields -> PyDict.get k d = None).

(** What [course] lists for an exercise: its [key] and its [title], in
    that order and nothing else. *)
Definition key_and_title (entry : ExerciseDict.t) (d : dict) : Prop :=
  exists k t,
    ExerciseDict.getitem entry "key" = Some k /\
    ExerciseDict.getitem entry "title" = Some t /\
    d = [("key", k); ("title", t)].

(** The exported value [j] has the shape of the tree below [o]: it is an
    object whose [children] entry is a list that has, child by child and in
    order, the shape of the children of [o]. *)
Inductive Mirrors : Node.t -> json -> Prop :=
| Mirrors_node (o : Node.t) (data : dict) (js : list json) :
    PyDict.get "children" data = Some (JList js) ->
    Forall2 Mirrors (Node.children o) js ->
    Mirrors o (JObj data).

(** ** More values to run the views on *)

Module DemoMore.

(** An exercise entry that has a [key] and no [title]. *)
Definition untitled : ExerciseDict.t :=
  ExerciseDict.Build None None [("key", JStr "ex3")].

(** A request of a browser: not AJAX. *)
Definition page_request : HttpRequest :=
  {| GET := ∅; is_ajax := false; base_url := "https://x" |}.

(** The demo course in a store that has its first exercise in Finnish
    only: the lookup answers for "fi" and for no code, and for no other
    language. *)
Definition finnish_only : CourseConfig.t :=
  CourseConfig.Build "demo" "fi" Demo.course_data
    (CourseConfig.exercise_config Demo.config)
    (fun exercise_key lang =>
       if String.eqb exercise_key "ex1" then
         match lang with
         | None => Some Demo.ex1_dict
         | Some l => if String.eqb l "fi" then Some Demo.ex1_dict else None
         end
       else None)
    [Demo.ex1_dict].

Definition finnish_world : World :=
  {| courses := {[ "demo" := finnish_only ]};
     files := ∅;
     active_language := None;
     opened := [] |}.

(** The demo store on a disk where [files] is a regular file, so that
    nothing can be at [files/A.py], and where [fi/a.py] is a directory. *)
Definition blocked_world : World :=
  {| courses := {[ "demo" := Demo.config ]};
     files := {[ "/srv/courses/demo/files/A.py" := UnderRegularFile;
                 "/srv/courses/demo/fi/a.py" := Directory ]};
     active_language := None;
     opened := [] |}.

(** The demo store on a disk that has [entry] at the path of the model
    file [files/A.py]. *)
Definition disk_with (entry : file_entry) : World :=
  {| courses := {[ "demo" := Demo.config ]};
     files := {[ "/srv/courses/demo/files/A.py" := entry ]};
     active_language := None;
     opened := [] |}.

(** A model file with the line ends of another system. *)
Definition crlf_world : World :=
  {| courses := {[ "demo" := Demo.config ]};
     files := {[ "/srv/courses/demo/files/a.py" :=
                   RegularFile (String "a" (String "013" (String "010" "b"))) ]};
     active_language := None;
     opened := [] |}.

End DemoMore.

(** ** Collaborators to run the object-level export with *)

Module DemoObj.
Import Obj.

Definition reverse (name : string) (args : list string) : M string :=
  ret (Demo.reverse name args).

Definition absolute_uri (base location : string) : M string :=
  ret (Demo.absolute_uri base location).

(** Merges the entries of the exercise record into [of] and returns [of]. *)
Definition export_exercise (request : HttpRequest) (config : CourseConfig.t)
  (exercise : option pyval) (of_ : pyval) : M pyval :=
  match exercise, of_ with
  | Some (PCached _ e), PDict d =>
      match CourseConfig.exercise_config config e with
      | Some record =>
          ret (PDict (fold_left (fun d kv => PyDict.set kv.1 (PJson kv.2) d)
                        (ExerciseDict.entries record) d))
      | None => ret of_
      end
  | _, _ => ret of_
  end.

Definition export_chapter (request : HttpRequest) (config : CourseConfig.t)
  (of_ : pyval) : M pyval :=
  setitem of_ "static_content_url"
    (PJson (JStr (Demo.absolute_uri (base_url request)
                    ("/static/" +:+ CourseConfig.key config)))).

(** A transform that returns the dictionary of the store itself. *)
Definition export_exercise_in_place (request : HttpRequest)
  (config : CourseConfig.t) (exercise : option pyval) (of_ : pyval)
  : M pyval :=
  ret (default of_ exercise).

(** A transform that numbers its answers: it writes on the chapter how
    many files had been opened, and opens one. *)
Definition export_chapter_numbered (request : HttpRequest)
  (config : CourseConfig.t) (of_ : pyval) : M pyval :=
  fun ew =>
    setitem of_ "serial"
      (PJson (JNum (Z.of_nat (List.length (opened (world ew))))))
      {| world := log_opened "/srv/serial" (world ew);
         cache_writes := cache_writes ew |}.

Definition eworld : EWorld := {| world := Demo.world; cache_writes := [] |}.

(** The same world after a file view has opened a file. *)
Definition later : EWorld :=
  {| world := log_opened "/srv/courses/demo/files/a.py" Demo.world;
     cache_writes := [] |}.

End DemoObj.

(** * Properties *)

(** ** Strings: the final segment of a path *)

Module PyStrFacts.
Import PyStr.

Lemma split_nonempty sep s : split sep s <> [].
Proof.
  destruct s as [|c s]; simpl; [discriminate|].
  destruct (Ascii.eqb c sep); [discriminate|].
  destruct (split sep s); discriminate.
Qed.

Lemma join_split sep s : join sep (split sep s) = s.
Proof.
  induction s as [|c s IH]; simpl; [reflexivity|].
  destruct (Ascii.eqb c sep) eqn:E.
  - apply Ascii.eqb_eq in E. subst c.
    pose proof (split_nonempty sep s) as Hne.
    simpl. destruct (split sep s) as [|seg rest]; [congruence|].
    now rewrite IH.
  - pose proof (split_nonempty sep s) as Hne.
    destruct (split sep s) as [|seg rest]; [congruence|].
    destruct rest as [|seg' rest]; simpl in *; rewrite <- IH; reflexivity.
Qed.

Lemma split_segments sep s :
  Forall (fun seg => occurs sep seg = false) (split sep s).
Proof.
  induction s as [|c s IH]; simpl.
  - repeat constructor.
  - destruct (Ascii.eqb c sep) eqn:E.
    + constructor; [reflexivity | exact IH].
    + destruct (split sep s) as [|seg rest].
      * constructor; [simpl; now rewrite E | constructor].
      * inversion IH; subst. constructor; [simpl; now rewrite E | assumption].
Qed.

Lemma append_assoc (a b c : string) : (a +:+ b) +:+ c = a +:+ (b +:+ c).
Proof.
  induction a as [|x a IH]; [reflexivity|].
  change (String x ((a +:+ b) +:+ c) = String x (a +:+ (b +:+ c))).
  now rewrite IH.
Qed.

Lemma join_last sep l :
  l <> [] ->
  join sep l = List.last l EmptyString \/
  exists dir, join sep l = dir +:+ String sep (List.last l EmptyString).
Proof.
  induction l as [|x l IH]; [congruence|]. intros _.
  destruct l as [|y l]; [left; reflexivity|]. right.
  destruct IH as [IH|[dir IH]]; [discriminate| |].
  - exists x. change (join sep (x :: y :: l)) with (x +:+ String sep (join sep (y :: l))).
    now rewrite IH.
  - exists (x +:+ String sep dir).
    change (join sep (x :: y :: l)) with (x +:+ String sep (join sep (y :: l))).
    rewrite IH. change (List.last (x :: y :: l) EmptyString)
      with (List.last (y :: l) EmptyString).
    now rewrite append_assoc.
Qed.

Lemma last_Forall {A} (P : A -> Prop) (l : list A) d :
  l <> [] -> Forall P l -> P (List.last l d).
Proof.
  induction l as [|x l IH]; [congruence|]. intros _ H.
  inversion H; subst. destruct l as [|y l]; [assumption|].
  apply IH; [discriminate | assumption].
Qed.

(** [basename path] holds no slash, and [path] is it, or a directory part,
    a slash and it. *)
Lemma basename_spec path :
  occurs "/" (basename path) = false /\
  (path = basename path \/ exists dir, path = dir +:+ String "/" (basename path)).
Proof.
  unfold basename. split.
  - apply (last_Forall (fun seg => occurs "/" seg = false)).
    + apply split_nonempty.
    + apply split_segments.
  - pose proof (join_last "/" (split "/" path) (split_nonempty _ _)) as H.
    rewrite join_split in H. exact H.
Qed.

End PyStrFacts.

(** ** Dictionaries *)

Module PyDictFacts.
Import PyDict.

Lemma get_set_eq {V} k (v : V) d : get k (set k v d) = Some v.
Proof.
  induction d as [|[k' v'] d IH]; simpl.
  - now rewrite String.eqb_refl.
  - destruct (String.eqb k' k) eqn:E; simpl.
    + now rewrite String.eqb_refl.
    + now rewrite E.
Qed.

Lemma get_set_ne {V} k k' (v : V) d : k <> k' -> get k' (set k v d) = get k' d.
Proof.
  intros Hne. induction d as [|[k0 v0] d IH]; simpl.
  - destruct (String.eqb k k') eqn:E; [apply String.eqb_eq in E; congruence | reflexivity].
  - destruct (String.eqb k0 k) eqn:E; simpl.
    + apply String.eqb_eq in E. subst k0.
      destruct (String.eqb k k') eqn:E'; [apply String.eqb_eq in E'; congruence | reflexivity].
    + destruct (String.eqb k0 k'); [reflexivity | exact IH].
Qed.

(** Writing a key leaves the entries of every other key as they are. *)
Lemma elem_of_set_ne {V} k k' (v v' : V) d :
  k <> k' -> (k', v') ∈ set k v d <-> (k', v') ∈ d.
Proof.
  intros Hne. induction d as [|[k0 v0] d IH]; simpl.
  - rewrite list_elem_of_singleton. split; [intros [=]; congruence | intros H; inversion H].
  - destruct (String.eqb k0 k) eqn:E.
    + apply String.eqb_eq in E. subst k0.
      rewrite !elem_of_cons. split; (intros [[=]|H]; [congruence | now right]).
    + rewrite !elem_of_cons, IH. reflexivity.
Qed.

End PyDictFacts.

(** ** [pydantic_dict] *)

Lemma excluded_spec exclude k : excluded exclude k = true <-> k ∈ exclude.
Proof.
  unfold excluded. rewrite existsb_exists. split.
  - intros (x & Hin & E). apply String.eqb_eq in E. subst x.
    now apply list_elem_of_In.
  - intros Hin. exists k. split; [now apply list_elem_of_In | apply String.eqb_refl].
Qed.

(** The entries of [m.dict(exclude=..., exclude_none=True)] are the fields
    that are not excluded and hold a value, in the order of the fields. *)
Lemma elem_of_pydantic_dict exclude fs k v :
  (k, v) ∈ pydantic_dict exclude fs <-> (k ∉ exclude) /\ (k, Some v) ∈ fs.
Proof.
  induction fs as [|[k0 ov] fs IH]; simpl.
  - split; [intros H; inversion H | intros [_ H]; inversion H].
  - destruct (excluded exclude k0) eqn:E.
    + rewrite IH, elem_of_cons. apply excluded_spec in E.
      split; [intros [? ?]; auto | intros [Hk [[=]|?]]; [subst; contradiction | auto]].
    + assert (k0 ∉ exclude) as Hk0.
      { intros H. apply excluded_spec in H. congruence. }
      destruct ov as [v0|].
      * rewrite !elem_of_cons, IH. split.
        -- intros [[=]|[? ?]]; [subst; auto | auto].
        -- intros [Hk [[=]|?]]; [subst; auto | auto].
      * rewrite IH, elem_of_cons. split; [intros [? ?]; auto |].
        intros [Hk [[=]|?]]; auto.
Qed.

Lemma pydantic_dict_filter exclude fs :
  pydantic_dict exclude fs =
  omap (fun kv => if excluded exclude kv.1 then None else (fun v => (kv.1, v)) <$> kv.2) fs.
Proof.
  induction fs as [|[k ov] fs IH]; simpl; [reflexivity|].
  destruct (excluded exclude k); [exact IH|].
  destruct ov; simpl; now rewrite IH.
Qed.

(** ** Running the demo course *)

Example demo_aplus_json :
  (aplus_json Demo.reverse Demo.absolute_uri Demo.export_exercise
     Demo.export_chapter Demo.request "demo" Demo.world).1 =
  Return (JsonResponse (JObj
    [("name", JStr "Demo course");
     ("lang", JStr "fi");
     ("modules", JList
        [JObj [("key", JStr "M1");
               ("children", JList
                  [JObj [("key", JStr "ex1"); ("children", JList [])];
                   JObj [("key", JStr "ch1");
                         ("static_content", JStr "ch1.html");
                         ("static_content_url", JStr "https://x/static/demo");
                         ("children", JList
                            [JObj [("key", JStr "ex2");
                                   ("config", JStr "ex2/config.yaml");
                                   ("max_points", JNum 10);
                                   ("title", JObj [("en", JStr "Hello");
                                                   ("fi", JStr "Hei")]);
                                   ("children", JList [])]])]])]]);
     ("build_log_url", JStr "https://x/demo/build-log-json")])).
Proof. vm_compute. reflexivity. Qed.

Example demo_model_found :
  exercise_model Demo.path_to Demo.request "demo" "ex1" "a.py" Demo.world =
  (Return (HttpResponse "print(1)" "text/plain"),
   {| courses := courses Demo.world; files := files Demo.world;
      active_language := Some "fi";
      opened := ["/srv/courses/demo/files/a.py"] |}).
Proof. vm_compute. reflexivity. Qed.

Example demo_model_unmatched :
  exercise_model Demo.path_to Demo.request "demo" "ex1" "b.py" Demo.world =
  (Raise (Http404 None None),
   {| courses := courses Demo.world; files := files Demo.world;
      active_language := Some "fi";
      opened := [] |}).
Proof. vm_compute. reflexivity. Qed.

Example demo_split : PyStr.split "/" "a/b//c.py" = ["a"; "b"; ""; "c.py"].
Proof. reflexivity. Qed.

Example demo_basename : PyStr.basename "dir/model.py" = "model.py".
Proof. reflexivity. Qed.

(** ** Locating a file by its base name *)

Lemma find_name_find parameter paths name :
  find_name parameter paths name =
  List.find (fun path => String.eqb (PyStr.basename path) parameter) paths.
Proof.
  unfold find_name.
  induction paths as [|p paths IH]; simpl; [reflexivity|].
  destruct (String.eqb (PyStr.basename p) parameter); [reflexivity | exact IH].
Qed.

Lemma find_name_Some parameter paths name path :
  find_name parameter paths name = Some path <->
  exists before after,
    paths = before ++ path :: after /\
    PyStr.basename path = parameter /\
    Forall (fun q => PyStr.basename q <> parameter) before.
Proof.
  rewrite find_name_find. split.
  - induction paths as [|p paths IH]; simpl; [discriminate|].
    destruct (String.eqb (PyStr.basename p) parameter) eqn:E.
    + intros [= ->]. apply String.eqb_eq in E.
      exists [], paths. repeat split; [assumption | constructor].
    + intros H. destruct (IH H) as (before & after & -> & Hb & Hall).
      exists (p :: before), after. repeat split; [assumption|].
      constructor; [|assumption]. now apply String.eqb_neq.
  - intros (before & after & -> & Hb & Hall).
    induction Hall as [|q before Hq Hall IH]; simpl.
    + apply String.eqb_eq in Hb. now rewrite Hb.
    + apply String.eqb_neq in Hq. now rewrite Hq.
Qed.

Lemma find_name_None parameter paths name :
  find_name parameter paths name = None <->
  Forall (fun q => PyStr.basename q <> parameter) paths.
Proof.
  rewrite find_name_find. induction paths as [|p paths IH]; simpl.
  - split; [constructor | reflexivity].
  - destruct (String.eqb (PyStr.basename p) parameter) eqn:E.
    + apply String.eqb_eq in E. split; [discriminate|].
      intros H. inversion H; subst. congruence.
    + apply String.eqb_neq in E. rewrite IH. split.
      * intros H. now constructor.
      * intros H. now inversion H.
Qed.

(** C4.  [find_name] returns the first entry, in the order of the list,
    whose final path segment is the requested base name, compared exactly
    (so with case); it returns [None] when no entry has that base name.  The
    final segment holds no slash and ends the path after its last slash.
    [find_name] is a function of its arguments alone: it does not run in the
    monad of the views, so it reads no file. *)
Theorem find_name_first_match (parameter : string) (paths : list string)
  (name : string) :
  (forall path,
     find_name parameter paths name = Some path <->
     exists before after,
       paths = before ++ path :: after /\
       PyStr.basename path = parameter /\
       Forall (fun q => PyStr.basename q <> parameter) before) /\
  (find_name parameter paths name = None <->
   Forall (fun q => PyStr.basename q <> parameter) paths) /\
  (forall path,
     PyStr.occurs "/" (PyStr.basename path) = false /\
     (path = PyStr.basename path \/
      exists dir, path = dir +:+ String "/" (PyStr.basename path))).
Proof.
  split; [|split].
  - intros path. apply find_name_Some.
  - apply find_name_None.
  - intros path. apply PyStrFacts.basename_spec.
Qed.

Example find_name_model :
  find_name "model.py" ["lib/util.py"; "dir/model.py"; "other/model.py"]
    "model.py" = Some "dir/model.py".
Proof. reflexivity. Qed.

Example find_name_missing :
  find_name "missing.py" ["lib/util.py"; "dir/model.py"] "missing.py" = None.
Proof. reflexivity. Qed.

Example find_name_case :
  find_name "model.py" ["dir/Model.py"] "model.py" = None.
Proof. reflexivity. Qed.

(** C10.  The second argument of [find_name] plays no part: the loop binds
    [name] to the base name of each entry and compares it with the
    [parameter] of the enclosing view. *)
Theorem find_name_ignores_name (parameter : string) (paths : list string)
  (x y : string) :
  find_name parameter paths x = find_name parameter paths y /\
  find_name parameter paths x =
  List.find (fun path => String.eqb (PyStr.basename path) parameter) paths.
Proof.
  split; [reflexivity | apply find_name_find].
Qed.

Example find_name_other_argument :
  find_name "model.py" ["dir/model.py"] "util.py" = Some "dir/model.py".
Proof. reflexivity. Qed.

(** ** Resolving course, exercise and language *)

Lemma get_course_exercise_lang_unknown_course course_key exercise_key lang_code w :
  courses w !! course_key = None ->
  _get_course_exercise_lang course_key exercise_key lang_code w =
  (Raise (Http404 None None), w).
Proof.
  intros H. unfold _get_course_exercise_lang, bind, CourseConfig_get.
  now rewrite H.
Qed.

Lemma get_course_exercise_lang_unknown_exercise course_key exercise_key
  lang_code w config :
  courses w !! course_key = Some config ->
  CourseConfig.exercise_data config exercise_key (keep_short lang_code) = None ->
  _get_course_exercise_lang course_key exercise_key lang_code w =
  (Raise (Http404 None None), w).
Proof.
  intros H1 H2. unfold _get_course_exercise_lang, bind, CourseConfig_get.
  now rewrite H1, H2.
Qed.

Lemma get_course_exercise_lang_found course_key exercise_key lang_code w
  config exercise :
  courses w !! course_key = Some config ->
  CourseConfig.exercise_data config exercise_key (keep_short lang_code)
    = Some exercise ->
  _get_course_exercise_lang course_key exercise_key lang_code w =
  (Return (config, exercise, or_course_lang (keep_short lang_code) config),
   set_active_language (or_course_lang (keep_short lang_code) config) w).
Proof.
  intros H1 H2. unfold _get_course_exercise_lang, bind, CourseConfig_get.
  now rewrite H1, H2.
Qed.

Lemma prefix_truthy n s : PyStr.truthy s = true -> PyStr.truthy (PyStr.prefix (S n) s) = true.
Proof. destruct s; [discriminate | reflexivity]. Qed.

Lemma truthy_nonempty s : PyStr.truthy s = true <-> s <> "".
Proof. destruct s; split; try congruence; try discriminate; reflexivity. Qed.

Lemma resolved_present code config :
  code <> "" ->
  or_course_lang (keep_short (Some code)) config = PyStr.prefix 2 code.
Proof.
  intros H%truthy_nonempty. unfold keep_short, or_course_lang. simpl.
  rewrite H. simpl. now rewrite prefix_truthy.
Qed.

Lemma resolved_absent lang_code config :
  lang_code = None \/ lang_code = Some "" ->
  or_course_lang (keep_short lang_code) config = CourseConfig.lang config.
Proof. intros [->| ->]; reflexivity. Qed.

(** C3, as the code has it.  A requested code that is present and not
    empty is cut to its first two characters and handed to the lookup of
    the exercise; the view compares it with no list of languages.  When the
    lookup answers, that code is returned and activated; an absent or empty
    code gives the default language of the course instead.  When the course
    is unknown or the lookup answers [None], the request ends in [Http404]
    and nothing is returned or activated. *)
Theorem get_course_exercise_lang_resolves (course_key exercise_key : string)
  (lang_code : option string) (w : World) :
  let run := _get_course_exercise_lang course_key exercise_key lang_code w in
  (forall code, lang_code = Some code -> code <> "" ->
     keep_short lang_code = Some (PyStr.prefix 2 code)) /\
  (lang_code = None \/ lang_code = Some "" -> keep_short lang_code = lang_code) /\
  (courses w !! course_key = None -> run = (Raise (Http404 None None), w)) /\
  (forall config,
     courses w !! course_key = Some config ->
     CourseConfig.exercise_data config exercise_key (keep_short lang_code)
       = None ->
     run = (Raise (Http404 None None), w)) /\
  (forall config exercise,
     courses w !! course_key = Some config ->
     CourseConfig.exercise_data config exercise_key (keep_short lang_code)
       = Some exercise ->
     exists resolved,
       run = (Return (config, exercise, resolved),
              set_active_language resolved w) /\
       (forall code, lang_code = Some code -> code <> "" ->
          resolved = PyStr.prefix 2 code /\
          resolved =
            LanguageResolver_resolve lang_code (CourseConfig.lang config)) /\
       (lang_code = None \/ lang_code = Some "" ->
        resolved = CourseConfig.lang config)).
Proof.
  intros run. subst run. split; [|split; [|split; [|split]]].
  - intros code -> Hne%truthy_nonempty. unfold keep_short. simpl.
    now rewrite Hne.
  - intros [->| ->]; reflexivity.
  - apply get_course_exercise_lang_unknown_course.
  - apply get_course_exercise_lang_unknown_exercise.
  - intros config exercise H1 H2.
    exists (or_course_lang (keep_short lang_code) config). split; [|split].
    + now apply get_course_exercise_lang_found.
    + intros code -> Hne. split; now apply resolved_present.
    + apply resolved_absent.
Qed.

Lemma get_course_exercise_lang_resolves_witness :
  _get_course_exercise_lang "demo" "ex2" (Some "en-GB") Demo.world =
    (Return (Demo.config, Demo.ex2_lang "en", "en"),
     set_active_language "en" Demo.world) /\
  _get_course_exercise_lang "demo" "ex1" (Some "fr") DemoMore.finnish_world =
    (Raise (Http404 None None), DemoMore.finnish_world).
Proof.
  split.
  - pose proof (get_course_exercise_lang_resolves "demo" "ex2" (Some "en-GB")
                  Demo.world) as H.
    cbv zeta in H. destruct H as (_ & _ & _ & _ & H).
    destruct (H Demo.config (Demo.ex2_lang "en")) as (resolved & Hrun & Hp & _);
      [vm_compute; reflexivity | vm_compute; reflexivity |].
    destruct (Hp "en-GB" eq_refl) as [-> _]; [discriminate|]. exact Hrun.
  - pose proof (get_course_exercise_lang_resolves "demo" "ex1" (Some "fr")
                  DemoMore.finnish_world) as H.
    cbv zeta in H. destruct H as (_ & _ & _ & H & _).
    apply (H DemoMore.finnish_only); vm_compute; reflexivity.
Defined.

Example resolve_region_tagged :
  (_get_course_exercise_lang "demo" "ex1" (Some "en-GB") Demo.world).1 =
  Return (Demo.config, Demo.ex1_dict, "en").
Proof. vm_compute. reflexivity. Qed.

Example resolve_absent :
  (_get_course_exercise_lang "demo" "ex1" None Demo.world).1 =
  Return (Demo.config, Demo.ex1_dict, "fi").
Proof. vm_compute. reflexivity. Qed.

Example resolve_unavailable :
  (_get_course_exercise_lang "demo" "ex1" (Some "fr") Demo.world).1 =
  Return (Demo.config, Demo.ex1_dict, "fr").
Proof. vm_compute. reflexivity. Qed.

(** C3, as stated, fails in two places.  For a code that is present and
    empty (the query [?lang=]) the resolver of the specification returns
    the empty code, the view returns the default language of the course.
    And the code is not returned unconditionally: in a store that has the
    exercise in Finnish only, the lookup for "fr" answers [None] and the
    request ends in [Http404], with nothing returned or activated. *)
Lemma language_resolution_counterexample :
  ((_get_course_exercise_lang "demo" "ex1" (Some "") Demo.world).1 =
     Return (Demo.config, Demo.ex1_dict, "fi") /\
   LanguageResolver_resolve (Some "") (CourseConfig.lang Demo.config) = "" /\
   (_get_course_exercise_lang "demo" "ex1" (Some "") Demo.world).1 <>
     Return (Demo.config, Demo.ex1_dict,
             LanguageResolver_resolve (Some "")
               (CourseConfig.lang Demo.config))) /\
  (CourseConfig.exercise_data DemoMore.finnish_only "ex1" (Some "fi") =
     Some Demo.ex1_dict /\
   CourseConfig.exercise_data DemoMore.finnish_only "ex1" (Some "fr") = None /\
   LanguageResolver_resolve (Some "fr")
     (CourseConfig.lang DemoMore.finnish_only) = "fr" /\
   _get_course_exercise_lang "demo" "ex1" (Some "fr") DemoMore.finnish_world =
     (Raise (Http404 None None), DemoMore.finnish_world) /\
   active_language
     (_get_course_exercise_lang "demo" "ex1" (Some "fr")
        DemoMore.finnish_world).2 = None).
Proof.
  split.
  - split; [vm_compute; reflexivity|]. split; [reflexivity|].
    vm_compute. intros [=].
  - repeat split; vm_compute; reflexivity.
Qed.

(** ** Serving a model or a template file *)

Section FileViews.

Variable path_to : string -> string -> string.

Ltac run_view :=
  unfold view, exercise_model, exercise_template, bind, ret, raise,
    try_except_FileNotFoundError, open_read, located, file_list in *.

Lemma view_unknown_course kind request course_key exercise_key parameter w :
  courses w !! course_key = None ->
  view path_to kind request course_key exercise_key parameter w =
  (Raise (Http404 None None), w).
Proof.
  intros H. destruct kind; run_view;
    now rewrite (get_course_exercise_lang_unknown_course _ _ _ _ H).
Qed.

Lemma view_unknown_exercise kind request course_key exercise_key parameter w
  config :
  courses w !! course_key = Some config ->
  CourseConfig.exercise_data config exercise_key
    (keep_short (GET request !! "lang")) = None ->
  view path_to kind request course_key exercise_key parameter w =
  (Raise (Http404 None None), w).
Proof.
  intros H1 H2. destruct kind; run_view;
    now rewrite (get_course_exercise_lang_unknown_exercise _ _ _ _ _ H1 H2).
Qed.

(** Once course and exercise are found, the view answers from the located
    path and the file system alone. *)
Lemma view_found kind request course_key exercise_key parameter w config
  exercise :
  courses w !! course_key = Some config ->
  CourseConfig.exercise_data config exercise_key
    (keep_short (GET request !! "lang")) = Some exercise ->
  let w1 :=
    set_active_language
      (or_course_lang (keep_short (GET request !! "lang")) config) w in
  view path_to kind request course_key exercise_key parameter w =
  match located kind exercise parameter with
  | Some p =>
      if PyStr.truthy p then
        let file := path_to (CourseConfig.key config) p in
        (answer_of (missing_detail kind) (open_result file (files w !! file)),
         log_opened file w1)
      else (Raise (Http404 None None), w1)
  | None => (Raise (Http404 None None), w1)
  end.
Proof.
  intros H1 H2 w1. destruct kind; run_view;
    rewrite (get_course_exercise_lang_found _ _ _ _ _ _ H1 H2); simpl;
    match goal with
    | |- context [str_truthy ?o] => destruct o as [p|]; simpl; [|reflexivity]
    end;
    (destruct (PyStr.truthy p); [|reflexivity]);
    simpl; destruct (files w !! _) as [[]|]; reflexivity.
Qed.

(** What the [try] of the views makes of a file that is not a readable
    regular file: [Http404] for [FileNotFoundError], the error itself
    otherwise. *)
Lemma answer_of_failure detail file at_path :
  (forall raw, at_path <> Some (RegularFile raw)) ->
  (at_path = None /\
   answer_of detail (open_result file at_path) =
     Raise (Http404 (Some detail) (Some (FileNotFoundError file)))) \/
  (exists entry e,
     at_path = Some entry /\
     open_result file at_path = Raise e /\
     answer_of detail (open_result file at_path) = Raise e /\
     status_code (@Raise Response e) = 500).
Proof.
  intros Hn. destruct at_path as [[raw| | | |]|]; simpl.
  - now destruct (Hn raw).
  - right. eauto 6.
  - right. eauto 6.
  - right. eauto 6.
  - right. eauto 6.
  - left. split; reflexivity.
Qed.

(** Whatever the request, the view answers a file, raises [Http404], or
    lets pass what [open] and [read] raise for the located file; it opens at
    most one file. *)
Lemma view_outcome kind request course_key exercise_key parameter w :
  let run := view path_to kind request course_key exercise_key parameter w in
  ((exists content, run.1 = Return (HttpResponse content "text/plain")) \/
   (exists detail cause, run.1 = Raise (Http404 detail cause)) \/
   (exists config exercise p entry e,
      courses w !! course_key = Some config /\
      CourseConfig.exercise_data config exercise_key
        (keep_short (GET request !! "lang")) = Some exercise /\
      located kind exercise parameter = Some p /\
      files w !! path_to (CourseConfig.key config) p = Some entry /\
      open_result (path_to (CourseConfig.key config) p) (Some entry) = Raise e /\
      run.1 = Raise e /\
      status_code run.1 = 500)) /\
  (opened run.2 = opened w \/ exists file, opened run.2 = opened w ++ [file]).
Proof.
  intros run. subst run.
  destruct (courses w !! course_key) as [config|] eqn:H1.
  2:{ rewrite view_unknown_course by assumption.
      split; [right; left; eauto | left; reflexivity]. }
  destruct (CourseConfig.exercise_data config exercise_key
              (keep_short (GET request !! "lang"))) as [exercise|] eqn:H2.
  2:{ rewrite (view_unknown_exercise _ _ _ _ _ _ _ H1 H2).
      split; [right; left; eauto | left; reflexivity]. }
  rewrite (view_found _ _ _ _ _ _ _ _ H1 H2).
  destruct (located kind exercise parameter) as [p|] eqn:Hl;
    [|split; [right; left; eauto | left; reflexivity]].
  destruct (PyStr.truthy p);
    [|split; [right; left; eauto | left; reflexivity]].
  simpl. split; [|right; eauto].
  destruct (files w !! path_to (CourseConfig.key config) p)
    as [[raw| | | |]|] eqn:Hf; simpl.
  - left. eauto.
  - right; right. exists config, exercise, p. eauto 10.
  - right; right. exists config, exercise, p. eauto 10.
  - right; right. exists config, exercise, p. eauto 10.
  - right; right. exists config, exercise, p. eauto 10.
  - right; left. eauto.
Qed.

(** C5, as the code has it.  An unknown course, an unknown exercise, an
    exercise without the file list, a base name that no entry has, and a
    matched entry at whose path [open] finds nothing end the request with
    [Http404]; the last one carries a detail and the [FileNotFoundError] as
    its cause, which tells it apart, and has the same status 404.  What
    else [open] and [read] raise for a matched path (a directory, a path
    under a regular file, no permission, text that does not decode) the
    view does not catch: it leaves the view as it is, a server error.  No
    stage runs twice: at most one file is opened. *)
Theorem single_file_failures_by_stage (kind : FileKind)
  (request : HttpRequest) (course_key exercise_key parameter : string)
  (w : World) :
  let run := view path_to kind request course_key exercise_key parameter w in
  let lang_code := keep_short (GET request !! "lang") in
  (courses w !! course_key = None -> run.1 = Raise (Http404 None None)) /\
  (forall config,
     courses w !! course_key = Some config ->
     CourseConfig.exercise_data config exercise_key lang_code = None ->
     run.1 = Raise (Http404 None None)) /\
  (forall config exercise,
     courses w !! course_key = Some config ->
     CourseConfig.exercise_data config exercise_key lang_code = Some exercise ->
     (file_list kind exercise = None -> run.1 = Raise (Http404 None None)) /\
     (forall paths,
        file_list kind exercise = Some paths ->
        find_name parameter paths parameter = None ->
        run.1 = Raise (Http404 None None)) /\
     (forall paths p,
        file_list kind exercise = Some paths ->
        find_name parameter paths parameter = Some p ->
        p <> "" ->
        files w !! path_to (CourseConfig.key config) p = None ->
        run.1 = Raise (Http404 (Some (missing_detail kind))
                         (Some (FileNotFoundError
                                  (path_to (CourseConfig.key config) p)))) /\
        run.1 <> Raise (Http404 None None) /\
        status_code run.1 = status_code (@Raise Response (Http404 None None)) /\
        opened run.2 = opened w ++ [path_to (CourseConfig.key config) p]) /\
     (forall paths p entry,
        file_list kind exercise = Some paths ->
        find_name parameter paths parameter = Some p ->
        p <> "" ->
        files w !! path_to (CourseConfig.key config) p = Some entry ->
        (forall raw, entry <> RegularFile raw) ->
        exists e,
          open_result (path_to (CourseConfig.key config) p) (Some entry)
            = Raise e /\
          run.1 = Raise e /\
          status_code run.1 = 500 /\
          opened run.2 = opened w ++ [path_to (CourseConfig.key config) p])) /\
  (forall e, run.1 = Raise e ->
     status_code run.1 = 404 \/
     status_code run.1 = 500 /\
     exists config exercise p entry,
       courses w !! course_key = Some config /\
       CourseConfig.exercise_data config exercise_key lang_code = Some exercise /\
       located kind exercise parameter = Some p /\
       files w !! path_to (CourseConfig.key config) p = Some entry /\
       open_result (path_to (CourseConfig.key config) p) (Some entry) = Raise e) /\
  (opened run.2 = opened w \/ exists file, opened run.2 = opened w ++ [file]).
Proof.
  intros run lang_code. subst run lang_code.
  split; [|split; [|split; [|split]]].
  - intros H. now rewrite view_unknown_course.
  - intros config H1 H2. now rewrite (view_unknown_exercise _ _ _ _ _ _ _ H1 H2).
  - intros config exercise H1 H2.
    rewrite (view_found _ _ _ _ _ _ _ _ H1 H2). unfold located.
    split; [|split; [|split]].
    + intros ->. reflexivity.
    + intros paths -> ->. reflexivity.
    + intros paths p -> -> Hp%truthy_nonempty Hf. rewrite Hp. simpl.
      rewrite Hf. simpl. repeat split. discriminate.
    + intros paths p entry -> -> Hp%truthy_nonempty Hf Hn. rewrite Hp. simpl.
      rewrite Hf.
      destruct entry as [raw| | | |]; [now destruct (Hn raw)| | | |];
        simpl; eexists; repeat split.
  - intros e He.
    destruct (view_outcome kind request course_key exercise_key parameter w)
      as [[[content Hc]|[(detail & cause & Hc)|Hc]] _]; simpl in Hc.
    + rewrite Hc in He. discriminate.
    + rewrite Hc. left. reflexivity.
    + destruct Hc as (config & exercise & p & entry & e' & H1 & H2 & Hl & Hf & Ho & Hr & Hs).
      right. split; [exact Hs|]. rewrite Hr in He. injection He as <-.
      exists config, exercise, p, entry. repeat split; assumption.
  - apply view_outcome.
Qed.

(** C7.  A file request that names an unknown course or an unknown exercise
    raises [Http404] and leaves the world as it found it: no file is opened.
    For an unknown course the store answers [None], a value and not an
    exception, and the view turns it into [Http404]. *)
Theorem unknown_keys_are_not_found (kind : FileKind) (request : HttpRequest)
  (course_key exercise_key parameter : string) (w : World) :
  let run := view path_to kind request course_key exercise_key parameter w in
  (courses w !! course_key = None ->
   CourseConfig_get course_key w = (Return None, w) /\
   run = (Raise (Http404 None None), w) /\
   status_code run.1 = 404 /\
   opened run.2 = opened w) /\
  (forall config,
     courses w !! course_key = Some config ->
     CourseConfig.exercise_data config exercise_key
       (keep_short (GET request !! "lang")) = None ->
     run = (Raise (Http404 None None), w) /\
     status_code run.1 = 404 /\
     opened run.2 = opened w).
Proof.
  intros run. subst run. split.
  - intros H. rewrite view_unknown_course by assumption.
    unfold CourseConfig_get. rewrite H. repeat split.
  - intros config H1 H2. rewrite (view_unknown_exercise _ _ _ _ _ _ _ H1 H2).
    repeat split.
Qed.

End FileViews.

Example demo_model_missing_on_disk :
  exercise_model Demo.path_to Demo.request "demo" "ex1" "A.py" Demo.world =
  (Raise (Http404 (Some "Model file missing")
            (Some (FileNotFoundError "/srv/courses/demo/files/A.py"))),
   log_opened "/srv/courses/demo/files/A.py"
     (set_active_language "fi" Demo.world)).
Proof. vm_compute. reflexivity. Qed.

Example demo_template_not_declared :
  exercise_template Demo.path_to Demo.request "demo" "ex1" "a.py" Demo.world =
  (Raise (Http404 None None), set_active_language "fi" Demo.world).
Proof. vm_compute. reflexivity. Qed.

Example demo_unknown_course :
  exercise_model Demo.path_to Demo.request "nope" "ex1" "a.py" Demo.world =
  (Raise (Http404 None None), Demo.world).
Proof. vm_compute. reflexivity. Qed.

Example demo_unknown_exercise :
  exercise_template Demo.path_to Demo.request "demo" "ex9" "a.py" Demo.world =
  (Raise (Http404 None None), Demo.world).
Proof. vm_compute. reflexivity. Qed.

(** ** The store is only read *)

Create HintDb frame.

Lemma preserves_store_ret {A} (a : A) : preserves_store (ret a).
Proof. intros w. reflexivity. Qed.

Lemma preserves_store_raise {A} e : preserves_store (@raise A e).
Proof. intros w. reflexivity. Qed.

Lemma preserves_store_bind {A B} (m : M A) (f : A -> M B) :
  preserves_store m -> (forall a, preserves_store (f a)) ->
  preserves_store (bind m f).
Proof.
  intros Hm Hf w. unfold bind. specialize (Hm w).
  destruct (m w) as [[a|e] w1]; simpl in *; [|assumption].
  rewrite Hf. assumption.
Qed.

Lemma preserves_store_try {A} (m : M A) h :
  preserves_store m -> (forall e, preserves_store (h e)) ->
  preserves_store (try_except_FileNotFoundError m h).
Proof.
  intros Hm Hh w. unfold try_except_FileNotFoundError. specialize (Hm w).
  destruct (m w) as [[a|[]] w1]; simpl in *; try assumption.
  rewrite Hh. assumption.
Qed.

Lemma preserves_store_get course_key : preserves_store (CourseConfig_get course_key).
Proof. intros w. reflexivity. Qed.

Lemma preserves_store_all : preserves_store CourseConfig_all.
Proof. intros w. reflexivity. Qed.

Lemma preserves_store_open path : preserves_store (open_read path).
Proof. intros w. reflexivity. Qed.

Lemma preserves_store_activate lang_code :
  preserves_store (translation_activate lang_code).
Proof. intros w. reflexivity. Qed.

#[local] Hint Resolve preserves_store_ret preserves_store_raise
  preserves_store_get preserves_store_all preserves_store_open
  preserves_store_activate : frame.

Ltac frame_step :=
  first
    [ apply preserves_store_bind; [|intros ?]
    | apply preserves_store_try; [|intros ?]
    | solve [auto with frame] ].

Lemma preserves_store_pick_loop entry pick_fields new_entry :
  preserves_store (pick_loop entry pick_fields new_entry).
Proof.
  revert new_entry. induction pick_fields as [|name rest IH]; intros new_entry;
    simpl; [auto with frame|].
  destruct (ExerciseDict.getitem entry name); auto with frame.
Qed.

Lemma preserves_store_filter_fields dict_list pick_fields :
  preserves_store (_filter_fields dict_list pick_fields).
Proof.
  unfold _filter_fields. generalize (@nil dict).
  induction dict_list as [|entry rest IH]; intros result; simpl;
    [auto with frame|].
  apply preserves_store_bind; [apply preserves_store_pick_loop | intros; apply IH].
Qed.

Lemma preserves_store_get_course_exercise_lang course_key exercise_key lang_code :
  preserves_store (_get_course_exercise_lang course_key exercise_key lang_code).
Proof.
  unfold _get_course_exercise_lang.
  apply preserves_store_bind; [auto with frame|].
  intros [config|]; [|auto with frame].
  destruct (CourseConfig.exercise_data _ _ _); repeat frame_step.
Qed.

#[local] Hint Resolve preserves_store_filter_fields
  preserves_store_get_course_exercise_lang : frame.

(** ** Exporting the course tree *)

Section TreeExport.

Variable reverse : string -> list string -> string.
Variable absolute_uri : string -> string -> string.
Variable export_exercise :
  HttpRequest -> CourseConfig.t -> option ExerciseDict.t -> dict -> dict.
Variable export_chapter : HttpRequest -> CourseConfig.t -> dict -> dict.
Variable path_to : string -> string -> string.

Ltac unfold_transform :=
  unfold transform, Node.is_Exercise, Node.is_Chapter.

Ltac unfold_export :=
  unfold export_module, export_child; unfold_transform.

Local Abbreviation children_recursion :=
  (children_recursion export_exercise export_chapter).
Local Abbreviation export_child := (export_child export_exercise export_chapter).
Local Abbreviation export_module := (export_module export_exercise export_chapter).
Local Abbreviation transform := (transform export_exercise export_chapter).
Local Abbreviation modules_loop := (modules_loop export_exercise export_chapter).
Ltac unfold_views :=
  unfold index, course, aplus_json, exercise_model, exercise_template.

Local Abbreviation aplus_json :=
  (aplus_json reverse absolute_uri export_exercise export_chapter).
Local Abbreviation course := (course reverse absolute_uri).
Local Abbreviation exercise_model := (exercise_model path_to).
Local Abbreviation exercise_template := (exercise_template path_to).

(** The loop appends one object for every child, front to back. *)
Lemma children_recursion_map request config parent :
  children_recursion request config parent =
  map (export_child request config) (Node.children parent).
Proof.
  destruct parent as [kind key cfg attrs cs]. simpl.
  match goal with
  | |- ?loop cs [] = _ =>
      enough (forall os result,
                 loop os result = result ++ map (export_child request config) os)
        as H by apply H
  end.
  induction os as [|o os IH]; intros result; simpl.
  - now rewrite app_nil_r.
  - rewrite IH, <- app_assoc. reflexivity.
Qed.

Lemma modules_loop_map request config ms modules :
  modules_loop request config ms modules =
  modules ++ map (export_module request config) ms.
Proof.
  revert modules. induction ms as [|m ms IH]; intros modules; simpl.
  - now rewrite app_nil_r.
  - rewrite IH, <- app_assoc. reflexivity.
Qed.

Lemma export_child_children request config o :
  exists data,
    export_child request config o = JObj data /\
    PyDict.get "children" data =
      Some (JList (children_recursion request config o)).
Proof.
  eexists. split; [reflexivity|]. apply PyDictFacts.get_set_eq.
Qed.

(** C1.  [children_recursion] returns one object for every child of the
    parent, in the order of the children and whatever their variants; the
    [children] entry of each object is the export of the children of that
    child, again in their order. *)
Theorem children_recursion_preserves_order (request : HttpRequest)
  (config : CourseConfig.t) (parent : Node.t) :
  children_recursion request config parent =
    map (export_child request config) (Node.children parent) /\
  List.length (children_recursion request config parent) =
    List.length (Node.children parent) /\
  (forall i o,
     Node.children parent !! i = Some o ->
     exists data,
       children_recursion request config parent !! i = Some (JObj data) /\
       PyDict.get "children" data =
         Some (JList (children_recursion request config o)) /\
       children_recursion request config o =
         map (export_child request config) (Node.children o)).
Proof.
  split; [apply children_recursion_map|]. split.
  - rewrite children_recursion_map. apply length_map.
  - intros i o Hi.
    destruct (export_child_children request config o) as (data & Hd & Hc).
    exists data. split; [|split].
    + rewrite children_recursion_map, list_lookup_fmap, Hi. simpl.
      now rewrite Hd.
    + exact Hc.
    + apply children_recursion_map.
Qed.

Lemma not_elem_of_children k : k ∉ ["children"] <-> k <> "children".
Proof.
  rewrite list_elem_of_singleton. reflexivity.
Qed.

(** C2, as the code has it.  The dictionary of a child holds its fields
    other than [children] that have a value.  An exercise whose [config] is
    true is then handed to the exercise transform together with the record
    that [exercise_config] returns for the key of the node (the language
    plays no part in the lookup); a chapter is handed to the chapter
    transform; any other node keeps its dictionary. *)
Theorem export_child_by_variant (request : HttpRequest)
  (config : CourseConfig.t) (parent : Node.t) (i : nat) (o : Node.t) :
  Node.children parent !! i = Some o ->
  (forall k v,
     (k, v) ∈ pydantic_dict ["children"] (Node.fields o) <->
     k <> "children" /\ (k, Some v) ∈ Node.fields o) /\
  exists data,
    children_recursion request config parent !! i =
      Some (JObj (PyDict.set "children"
                    (JList (children_recursion request config o)) data)) /\
    (Node.kind o = KExercise -> attr_truthy (Node.config o) = true ->
     data = export_exercise request config
              (CourseConfig.exercise_config config (Node.key o))
              (pydantic_dict ["children"] (Node.fields o))) /\
    (Node.kind o = KChapter ->
     data = export_chapter request config
              (pydantic_dict ["children"] (Node.fields o))) /\
    (Node.kind o <> KChapter ->
     Node.kind o <> KExercise \/ attr_truthy (Node.config o) = false ->
     data = pydantic_dict ["children"] (Node.fields o)).
Proof.
  intros Hi. split.
  - intros k v. rewrite elem_of_pydantic_dict, not_elem_of_children. reflexivity.
  - exists (transform request config o (pydantic_dict ["children"] (Node.fields o))).
    split; [|split; [|split]].
    + rewrite children_recursion_map, list_lookup_fmap, Hi. reflexivity.
    + intros Hk Hc. unfold_transform.
      now rewrite Hk, Hc.
    + intros Hk. unfold_transform.
      now rewrite Hk.
    + intros Hk Hc. unfold_transform.
      destruct (Node.kind o); try congruence; simpl; try reflexivity.
      destruct Hc as [Hc|Hc]; [congruence | now rewrite Hc].
Qed.

Lemma not_elem_of_course_exclude k :
  k ∉ ["modules"; "static_dir"] <-> k <> "modules" /\ k <> "static_dir".
Proof.
  rewrite elem_of_cons, list_elem_of_singleton. split.
  - intros H. split; intros E; apply H; [now left | now right].
  - intros [H1 H2] [E|E]; [exact (H1 E) | exact (H2 E)].
Qed.

(** The top-level modules get no transform; for a node of the variant
    Module that is what the rule for children gives as well. *)
Lemma export_module_child request config m :
  Node.kind m = KModule ->
  export_module request config m = export_child request config m.
Proof.
  intros Hk. unfold_export. now rewrite Hk.
Qed.

Lemma aplus_json_found request course_key w config :
  courses w !! course_key = Some config ->
  aplus_json request course_key w =
  (Return (JsonResponse (JObj
     (PyDict.set "build_log_url"
        (JStr (absolute_uri (base_url request)
                 (reverse "build-log-json" [course_key])))
        (PyDict.set "modules"
           (JList (map (export_module request config)
                     (Course.modules (CourseConfig.data config))))
           (pydantic_dict ["modules"; "static_dir"]
              (Course.fields (CourseConfig.data config))))))), w).
Proof.
  intros H. unfold_views. unfold bind, CourseConfig_get. rewrite H. simpl.
  now rewrite modules_loop_map.
Qed.

Lemma aplus_json_unknown request course_key w :
  courses w !! course_key = None ->
  aplus_json request course_key w = (Raise (Http404 None None), w).
Proof.
  intros H. unfold_views. unfold bind, CourseConfig_get. now rewrite H.
Qed.

(** C6.  For a course the store knows, the export answers one JSON object:
    its [modules] entry is the list of the exported modules, in order, its
    [build_log_url] entry is built from the base URL of the request and the
    course key, and its other entries are the attributes of the course that
    have a value, [modules] and [static_dir] left out.  A module is
    exported as its fields with a value, [children] apart, and under
    [children] the list of its exported children; a child is exported by
    the same rule after the transform of its variant, and so on down the
    tree.  For a key the store does not know the export raises [Http404]. *)
Theorem aplus_json_export (request : HttpRequest) (course_key : string)
  (w : World) :
  (courses w !! course_key = None ->
   aplus_json request course_key w = (Raise (Http404 None None), w) /\
   status_code (aplus_json request course_key w).1 = 404) /\
  (forall config,
     courses w !! course_key = Some config ->
     exists data,
       aplus_json request course_key w = (Return (JsonResponse (JObj data)), w) /\
       PyDict.get "modules" data =
         Some (JList (map (export_module request config)
                        (Course.modules (CourseConfig.data config)))) /\
       PyDict.get "build_log_url" data =
         Some (JStr (absolute_uri (base_url request)
                       (reverse "build-log-json" [course_key]))) /\
       (forall k v,
          k <> "modules" -> k <> "build_log_url" ->
          (k, v) ∈ data <->
          k <> "static_dir" /\
          (k, Some v) ∈ Course.fields (CourseConfig.data config)) /\
       (forall m,
          export_module request config m =
            JObj (PyDict.set "children"
                    (JList (map (export_child request config)
                              (Node.children m)))
                    (pydantic_dict ["children"] (Node.fields m))) /\
          (Node.kind m = KModule ->
           export_module request config m = export_child request config m)) /\
       (forall o,
          export_child request config o =
            JObj (PyDict.set "children"
                    (JList (map (export_child request config)
                              (Node.children o)))
                    (transform request config o
                       (pydantic_dict ["children"] (Node.fields o)))))).
Proof.
  split.
  - intros H. now rewrite aplus_json_unknown.
  - intros config H. eexists. split; [apply aplus_json_found; exact H|].
    split; [|split; [|split]].
    + rewrite PyDictFacts.get_set_ne by discriminate.
      apply PyDictFacts.get_set_eq.
    + apply PyDictFacts.get_set_eq.
    + intros k v Hm Hb.
      rewrite !PyDictFacts.elem_of_set_ne by congruence.
      rewrite elem_of_pydantic_dict, not_elem_of_course_exclude. split.
      * intros [[_ Hs] Hin]. split; assumption.
      * intros [Hs Hin]. repeat split; assumption.
    + split.
      * intros m. split; [|apply export_module_child].
        unfold_export. now rewrite children_recursion_map.
      * intros o. unfold_export. now rewrite children_recursion_map.
Qed.

Lemma preserves_store_index request : preserves_store (index request).
Proof.
  unfold_views. apply preserves_store_bind; [auto with frame|].
  intros course_configs. destruct (is_ajax request); auto with frame.
Qed.

Lemma preserves_store_course request course_key :
  preserves_store (course request course_key).
Proof.
  unfold_views. apply preserves_store_bind; [auto with frame|].
  intros [config|]; [|auto with frame].
  destruct (is_ajax request); repeat frame_step.
Qed.

Lemma preserves_store_aplus_json request course_key :
  preserves_store (aplus_json request course_key).
Proof.
  unfold_views. apply preserves_store_bind; [auto with frame|].
  intros [config|]; auto with frame.
Qed.

Lemma preserves_store_exercise_model request course_key exercise_key parameter :
  preserves_store (exercise_model request course_key exercise_key parameter).
Proof.
  unfold_views. apply preserves_store_bind; [auto with frame|].
  intros [[config exercise] lang].
  destruct (str_truthy _); repeat frame_step.
Qed.

Lemma preserves_store_exercise_template request course_key exercise_key
  parameter :
  preserves_store (exercise_template request course_key exercise_key parameter).
Proof.
  unfold_views. apply preserves_store_bind; [auto with frame|].
  intros [[config exercise] lang].
  destruct (str_truthy _); repeat frame_step.
Qed.

End TreeExport.

(** ** The properties on the demo course *)

Lemma export_child_by_variant_witness :
  (forall k v,
     (k, v) ∈ pydantic_dict ["children"] (Node.fields Demo.ex2) <->
     k <> "children" /\ (k, Some v) ∈ Node.fields Demo.ex2) /\
  exists data,
    children_recursion Demo.export_exercise Demo.export_chapter
      Demo.request Demo.config Demo.ch1 !! 0 =
      Some (JObj (PyDict.set "children"
                    (JList (children_recursion Demo.export_exercise
                              Demo.export_chapter Demo.request Demo.config
                              Demo.ex2)) data)) /\
    (Node.kind Demo.ex2 = KExercise ->
     attr_truthy (Node.config Demo.ex2) = true ->
     data = Demo.export_exercise Demo.request Demo.config
              (CourseConfig.exercise_config Demo.config (Node.key Demo.ex2))
              (pydantic_dict ["children"] (Node.fields Demo.ex2))) /\
    (Node.kind Demo.ex2 = KChapter ->
     data = Demo.export_chapter Demo.request Demo.config
              (pydantic_dict ["children"] (Node.fields Demo.ex2))) /\
    (Node.kind Demo.ex2 <> KChapter ->
     Node.kind Demo.ex2 <> KExercise \/
     attr_truthy (Node.config Demo.ex2) = false ->
     data = pydantic_dict ["children"] (Node.fields Demo.ex2)).
Proof.
  apply (export_child_by_variant Demo.export_exercise Demo.export_chapter
           Demo.request Demo.config Demo.ch1 0 Demo.ex2).
  reflexivity.
Defined.

(** C2, as stated, fails where it says that the record of the exercise is
    looked up by key and language: the export asks [exercise_config] for
    the key alone.  On the demo course the exported exercise carries the
    title in every language, where the record for the language "en" would
    give the English title. *)
Lemma per_language_record_counterexample :
  children_recursion Demo.export_exercise Demo.export_chapter
    Demo.request Demo.config Demo.ch1 =
    [JObj [("key", JStr "ex2");
           ("config", JStr "ex2/config.yaml");
           ("max_points", JNum 10);
           ("title", JObj [("en", JStr "Hello"); ("fi", JStr "Hei")]);
           ("children", JList [])]] /\
  transform_spec Demo.export_exercise Demo.export_chapter "en"
    Demo.request Demo.config Demo.ex2
    (pydantic_dict ["children"] (Node.fields Demo.ex2)) =
    [("key", JStr "ex2");
     ("config", JStr "ex2/config.yaml");
     ("max_points", JNum 10);
     ("title", JStr "Hello")] /\
  transform Demo.export_exercise Demo.export_chapter
    Demo.request Demo.config Demo.ex2
    (pydantic_dict ["children"] (Node.fields Demo.ex2)) <>
  transform_spec Demo.export_exercise Demo.export_chapter "en"
    Demo.request Demo.config Demo.ex2
    (pydantic_dict ["children"] (Node.fields Demo.ex2)).
Proof.
  split; [vm_compute; reflexivity|]. split; [vm_compute; reflexivity|].
  vm_compute. intros [=].
Qed.

Lemma single_file_failures_witness :
  (exercise_model Demo.path_to Demo.request "demo" "ex1" "A.py" Demo.world).1 =
    Raise (Http404 (Some "Model file missing")
             (Some (FileNotFoundError "/srv/courses/demo/files/A.py"))) /\
  (exercise_template Demo.path_to Demo.request "demo" "ex1" "a.py" Demo.world).1 =
    Raise (Http404 None None).
Proof.
  split.
  - pose proof (single_file_failures_by_stage Demo.path_to ModelFile
                  Demo.request "demo" "ex1" "A.py" Demo.world) as H.
    cbv zeta in H. destruct H as (_ & _ & H & _).
    destruct (H Demo.config Demo.ex1_dict) as (_ & _ & H3);
      [vm_compute; reflexivity | vm_compute; reflexivity |].
    destruct H3 as (H3 & _).
    destruct (H3 ["files/a.py"; "fi/a.py"; "files/A.py"] "files/A.py")
      as (H4 & _);
      [reflexivity | reflexivity | discriminate | vm_compute; reflexivity |].
    exact H4.
  - pose proof (single_file_failures_by_stage Demo.path_to TemplateFile
                  Demo.request "demo" "ex1" "a.py" Demo.world) as H.
    cbv zeta in H. destruct H as (_ & _ & H & _).
    destruct (H Demo.config Demo.ex1_dict) as (H1 & _);
      [vm_compute; reflexivity | vm_compute; reflexivity |].
    apply H1. reflexivity.
Defined.

(** C5, as stated, fails for a matched entry whose file is missing on disk
    because a regular file stands in the way of its path: [open] raises
    [NotADirectoryError], which the view does not catch, and the request
    ends in a server error, not in [Http404].  The same holds of the other
    failures of [open] and [read] at a matched path: a directory, a file
    that may not be read, a file that does not decode. *)
Lemma missing_under_regular_file_counterexample :
  located ModelFile Demo.ex1_dict "A.py" = Some "files/A.py" /\
  missing_on_disk
    (files DemoMore.blocked_world !! Demo.path_to "demo" "files/A.py") = true /\
  (exercise_model Demo.path_to Demo.request "demo" "ex1" "A.py"
     DemoMore.blocked_world).1 =
    Raise (NotADirectoryError "/srv/courses/demo/files/A.py") /\
  status_code
    (exercise_model Demo.path_to Demo.request "demo" "ex1" "A.py"
       DemoMore.blocked_world).1 = 500 /\
  status_code
    (exercise_model Demo.path_to Demo.request "demo" "ex1" "A.py"
       DemoMore.blocked_world).1 <> 404 /\
  (exercise_model Demo.path_to Demo.request "demo" "ex1" "A.py"
     (DemoMore.disk_with Directory)).1 =
    Raise (IsADirectoryError "/srv/courses/demo/files/A.py") /\
  (exercise_model Demo.path_to Demo.request "demo" "ex1" "A.py"
     (DemoMore.disk_with Unreadable)).1 =
    Raise (PermissionError "/srv/courses/demo/files/A.py") /\
  (exercise_model Demo.path_to Demo.request "demo" "ex1" "A.py"
     (DemoMore.disk_with Undecodable)).1 = Raise UnicodeDecodeError /\
  Forall
    (fun entry =>
       status_code
         (exercise_model Demo.path_to Demo.request "demo" "ex1" "A.py"
            (DemoMore.disk_with entry)).1 = 500)
    [Directory; Unreadable; Undecodable].
Proof.
  split; [reflexivity|]. split; [vm_compute; reflexivity|].
  split; [vm_compute; reflexivity|]. split; [vm_compute; reflexivity|].
  split; [vm_compute; discriminate|].
  split; [vm_compute; reflexivity|]. split; [vm_compute; reflexivity|].
  split; [vm_compute; reflexivity|].
  repeat constructor; vm_compute; reflexivity.
Qed.

Example demo_model_crlf :
  (exercise_model Demo.path_to Demo.request "demo" "ex1" "a.py"
     DemoMore.crlf_world).1 =
  Return (HttpResponse (String "a" (String "010" "b")) "text/plain").
Proof. vm_compute. reflexivity. Qed.

Lemma unknown_keys_witness :
  exercise_model Demo.path_to Demo.request "nope" "ex1" "a.py" Demo.world =
    (Raise (Http404 None None), Demo.world) /\
  exercise_template Demo.path_to Demo.request "demo" "ex9" "a.py" Demo.world =
    (Raise (Http404 None None), Demo.world).
Proof.
  split.
  - pose proof (unknown_keys_are_not_found Demo.path_to ModelFile
                  Demo.request "nope" "ex1" "a.py" Demo.world) as H.
    cbv zeta in H. destruct H as (H & _).
    destruct H as (_ & H & _); [vm_compute; reflexivity | exact H].
  - pose proof (unknown_keys_are_not_found Demo.path_to TemplateFile
                  Demo.request "demo" "ex9" "a.py" Demo.world) as H.
    cbv zeta in H. destruct H as (_ & H).
    destruct (H Demo.config) as (H1 & _);
      [vm_compute; reflexivity | vm_compute; reflexivity | exact H1].
Defined.

Lemma aplus_json_export_witness :
  exists data,
    aplus_json Demo.reverse Demo.absolute_uri Demo.export_exercise
      Demo.export_chapter Demo.request "demo" Demo.world =
      (Return (JsonResponse (JObj data)), Demo.world) /\
    PyDict.get "modules" data =
      Some (JList
        [JObj [("key", JStr "M1");
               ("children", JList
                  [JObj [("key", JStr "ex1"); ("children", JList [])];
                   JObj [("key", JStr "ch1");
                         ("static_content", JStr "ch1.html");
                         ("static_content_url", JStr "https://x/static/demo");
                         ("children", JList
                            [JObj [("key", JStr "ex2");
                                   ("config", JStr "ex2/config.yaml");
                                   ("max_points", JNum 10);
                                   ("title", JObj [("en", JStr "Hello");
                                                   ("fi", JStr "Hei")]);
                                   ("children", JList [])]])]])]]) /\
    PyDict.get "build_log_url" data =
      Some (JStr "https://x/demo/build-log-json") /\
    (forall v, (("static_dir", v) : string * json) ∉ data) /\
    ("lang", JStr "fi") ∈ data.
Proof.
  destruct (aplus_json_export Demo.reverse Demo.absolute_uri
              Demo.export_exercise Demo.export_chapter Demo.request "demo"
              Demo.world) as (_ & H).
  destruct (H Demo.config) as (data & Hrun & Hmod & Hurl & Hkeys & Hm & Hc);
    [vm_compute; reflexivity|].
  exists data. split; [exact Hrun|].
  split; [rewrite Hmod; vm_compute; reflexivity|].
  split; [exact Hurl|]. split.
  - intros v Hin. apply Hkeys in Hin; [|discriminate|discriminate].
    now destruct Hin as [Hne _].
  - apply Hkeys; [discriminate|discriminate|]. split; [discriminate|].
    vm_compute. do 2 apply list_elem_of_further. apply list_elem_of_here.
Defined.

(** * Further properties of the views *)

(** ** [_filter_fields] *)

Lemma complete_cons name rest entry :
  complete (name :: rest) entry <->
  is_Some (ExerciseDict.getitem entry name) /\ complete rest entry.
Proof.
  unfold complete.
  apply (Forall_cons (fun name => is_Some (ExerciseDict.getitem entry name))).
Qed.

Lemma pick_loop_complete entry pick_fields new_entry w :
  complete pick_fields entry ->
  exists d,
    pick_loop entry pick_fields new_entry w = (Return d, w) /\
    (forall name, name ∈ pick_fields ->
       PyDict.get name d = ExerciseDict.getitem entry name) /\
    (forall k, k ∉ pick_fields -> PyDict.get k d = PyDict.get k new_entry).
Proof.
  revert new_entry.
  induction pick_fields as [|name rest IH]; intros new_entry Hc.
  - exists new_entry. split; [reflexivity|]. split.
    + intros name H. inversion H.
    + reflexivity.
  - apply complete_cons in Hc as [[v Hv] Hc].
    destruct (IH (PyDict.set name v new_entry) Hc) as (d & Hrun & Hin & Hout).
    exists d. simpl. rewrite Hv. split; [exact Hrun|]. split.
    + intros x Hx. destruct (decide (x ∈ rest)) as [Hr|Hr]; [now apply Hin|].
      apply elem_of_cons in Hx as [->|Hx]; [|contradiction].
      rewrite (Hout _ Hr), PyDictFacts.get_set_eq. now rewrite Hv.
    + intros k Hk. apply not_elem_of_cons in Hk as [Hne Hk].
      rewrite (Hout _ Hk). apply PyDictFacts.get_set_ne. congruence.
Qed.

Lemma pick_loop_missing entry ok name more new_entry w :
  complete ok entry ->
  ExerciseDict.getitem entry name = None ->
  pick_loop entry (ok ++ name :: more) new_entry w = (Raise (KeyError name), w).
Proof.
  revert new_entry. induction ok as [|x ok IH]; intros new_entry Hc Hn; simpl.
  - now rewrite Hn.
  - apply complete_cons in Hc as [[v Hv] Hc]. rewrite Hv. now apply IH.
Qed.

(** An entry has all the picked fields, or there is a first one it lacks. *)
Lemma complete_or_missing pick_fields entry :
  complete pick_fields entry \/
  exists ok name more,
    pick_fields = ok ++ name :: more /\ complete ok entry /\
    ExerciseDict.getitem entry name = None.
Proof.
  induction pick_fields as [|name rest IH].
  - left. constructor.
  - destruct (ExerciseDict.getitem entry name) as [v|] eqn:Hv.
    + destruct IH as [Hc|(ok & x & more & -> & Hc & Hx)].
      * left. apply complete_cons. split; [now exists v | exact Hc].
      * right. exists (name :: ok), x, more. repeat split; [|exact Hx].
        apply complete_cons. split; [now exists v | exact Hc].
    + right. exists [], name, rest. repeat split; [constructor | exact Hv].
Qed.

Lemma entries_loop_complete dict_list pick_fields result w :
  Forall (complete pick_fields) dict_list ->
  exists ds,
    entries_loop dict_list pick_fields result w = (Return (result ++ ds), w) /\
    Forall2 (picked_from pick_fields) dict_list ds.
Proof.
  revert result. induction dict_list as [|entry rest IH]; intros result Hall.
  - exists []. split; [simpl; now rewrite app_nil_r | constructor].
  - inversion Hall as [|? ? Hc Hrest]; subst.
    destruct (pick_loop_complete entry pick_fields [] w Hc)
      as (d & Hrun & Hin & Hout).
    destruct (IH (result ++ [d]) Hrest) as (ds & Hloop & Hds).
    exists (d :: ds). split.
    + simpl. unfold bind. rewrite Hrun, Hloop. now rewrite <- app_assoc.
    + constructor; [|exact Hds]. split; [exact Hin|].
      intros k Hk. now rewrite (Hout k Hk).
Qed.

Lemma entries_loop_missing good bad rest ok name more pick_fields result w :
  Forall (complete pick_fields) good ->
  pick_fields = ok ++ name :: more ->
  complete ok bad ->
  ExerciseDict.getitem bad name = None ->
  entries_loop (good ++ bad :: rest) pick_fields result w =
  (Raise (KeyError name), w).
Proof.
  intros Hgood -> Hok Hn. revert result.
  induction Hgood as [|entry good Hc Hgood IH]; intros result; simpl.
  - unfold bind. now rewrite (pick_loop_missing _ _ _ _ _ _ Hok Hn).
  - destruct (pick_loop_complete entry _ [] w Hc) as (d & Hrun & _).
    unfold bind. rewrite Hrun. apply IH.
Qed.

(** The list is complete, or it has a first entry that lacks a field. *)
Lemma all_complete_or_missing pick_fields dict_list :
  Forall (complete pick_fields) dict_list \/
  exists good bad rest ok name more,
    dict_list = good ++ bad :: rest /\
    Forall (complete pick_fields) good /\
    pick_fields = ok ++ name :: more /\
    complete ok bad /\
    ExerciseDict.getitem bad name = None.
Proof.
  induction dict_list as [|entry rest IH].
  - left. constructor.
  - destruct (complete_or_missing pick_fields entry)
      as [Hc|(ok & name & more & Hp & Hok & Hn)].
    + destruct IH as [Hall|(good & bad & rest' & ok & name & more & -> & Hg & Hp & Hok & Hn)].
      * left. now constructor.
      * right. exists (entry :: good), bad, rest', ok, name, more.
        repeat split; try assumption. now constructor.
    + right. exists [], entry, rest, ok, name, more.
      repeat split; try assumption. constructor.
Qed.

(** [_filter_fields] returns for a complete list and raises [KeyError]
    otherwise; the world stays as it was. *)
Lemma filter_fields_total dict_list pick_fields w :
  (exists ds,
     _filter_fields dict_list pick_fields w = (Return ds, w) /\
     Forall (complete pick_fields) dict_list) \/
  (exists name,
     _filter_fields dict_list pick_fields w = (Raise (KeyError name), w) /\
     ~ Forall (complete pick_fields) dict_list).
Proof.
  destruct (all_complete_or_missing pick_fields dict_list)
    as [Hall|(good & bad & rest & ok & name & more & -> & Hg & Hp & Hok & Hn)].
  - left. destruct (entries_loop_complete dict_list pick_fields [] w Hall)
      as (ds & Hrun & _). now exists ds.
  - right. exists name. split.
    + now apply (entries_loop_missing good bad rest ok name more).
    + intros Hall. apply Forall_app in Hall as [_ Hall].
      inversion Hall as [|? ? Hc _]; subst.
      unfold complete in Hc. apply Forall_app in Hc as [_ Hc].
      inversion Hc as [|? ? [v Hv] _]; subst. congruence.
Qed.

(** X1.  When every entry has every picked field, [_filter_fields] returns
    one dictionary for each entry, in the order of the entries; each holds
    the picked fields with the values of its entry and no other key.  The
    world is left as it was. *)
Theorem filter_fields_picks (dict_list : list ExerciseDict.t)
  (pick_fields : list string) (w : World) :
  Forall (complete pick_fields) dict_list ->
  exists result,
    _filter_fields dict_list pick_fields w = (Return result, w) /\
    List.length result = List.length dict_list /\
    Forall2 (picked_from pick_fields) dict_list result.
Proof.
  intros Hall.
  destruct (entries_loop_complete dict_list pick_fields [] w Hall)
    as (ds & Hrun & Hds).
  exists ds. split; [exact Hrun|]. split; [|exact Hds].
  symmetry. exact (Forall2_length _ _ _ Hds).
Qed.

(** X2.  When an entry lacks a picked field, [_filter_fields] raises
    [KeyError] for the first field that the first such entry lacks; nothing
    is returned for the entries before it. *)
Theorem filter_fields_key_error (good : list ExerciseDict.t)
  (bad : ExerciseDict.t) (rest : list ExerciseDict.t)
  (ok : list string) (name : string) (more : list string) (w : World) :
  Forall (complete (ok ++ name :: more)) good ->
  complete ok bad ->
  ExerciseDict.getitem bad name = None ->
  _filter_fields (good ++ bad :: rest) (ok ++ name :: more) w =
  (Raise (KeyError name), w).
Proof.
  intros Hgood Hok Hn. unfold _filter_fields.
  now apply (entries_loop_missing good bad rest ok name more).
Qed.

(** X3.  [_filter_fields] returns exactly when every entry has every picked
    field; otherwise it raises [KeyError] for one of the picked fields.
    Either way the world is left as it was. *)
Theorem filter_fields_returns_iff (dict_list : list ExerciseDict.t)
  (pick_fields : list string) (w : World) :
  ((exists result, (_filter_fields dict_list pick_fields w).1 = Return result) <->
   Forall (complete pick_fields) dict_list) /\
  (forall e, (_filter_fields dict_list pick_fields w).1 = Raise e ->
     exists name, e = KeyError name /\ name ∈ pick_fields) /\
  (_filter_fields dict_list pick_fields w).2 = w.
Proof.
  destruct (all_complete_or_missing pick_fields dict_list)
    as [Hall|(good & bad & rest & ok & name & more & -> & Hg & Hp & Hok & Hn)].
  - destruct (entries_loop_complete dict_list pick_fields [] w Hall)
      as (ds & Hrun & _).
    unfold _filter_fields. rewrite Hrun. simpl. split; [|split].
    + split; [intros _; exact Hall | intros _; now exists ds].
    + intros e [=].
    + reflexivity.
  - unfold _filter_fields.
    rewrite (entries_loop_missing good bad rest ok name more pick_fields [] w
               Hg Hp Hok Hn). simpl. split; [|split].
    + split; [intros [result [=]]|].
      intros Hall. apply Forall_app in Hall as [_ Hall].
      inversion Hall as [|? ? Hc _]; subst.
      unfold complete in Hc. apply Forall_app in Hc as [_ Hc].
      inversion Hc as [|? ? [v Hv] _]; subst. congruence.
    + intros e [= <-]. exists name. split; [reflexivity|].
      subst pick_fields. apply elem_of_app. right. now left.
    + reflexivity.
Qed.

(** ** [index] and [course] *)

(** X4.  [index] never raises and leaves the world as it was.  For an AJAX
    request it answers [ready] and one object with [key] and [name] for
    every course of the store; otherwise it renders the page with the
    courses of the store. *)
Theorem index_lists_courses (request : HttpRequest) (w : World) :
  (index request w).2 = w /\
  (is_ajax request = true ->
   exists cs,
     (index request w).1 =
       Return (JsonResponse (JObj [("ready", JBool true); ("courses", JList cs)])) /\
     List.length cs = size (courses w) /\
     forall k c,
       courses w !! k = Some c ->
       JObj [("key", JStr (CourseConfig.key c));
             ("name", json_of_attr (Course.name (CourseConfig.data c)))] ∈ cs) /\
  (is_ajax request = false ->
   exists cs,
     (index request w).1 =
       Return (render "access/ready.html" [("courses", CtxConfigs cs)]) /\
     forall c, c ∈ cs <-> exists k, courses w !! k = Some c).
Proof.
  unfold index, bind, CourseConfig_all, ret. simpl.
  split; [destruct (is_ajax request); reflexivity|]. split.
  - intros ->. eexists. split; [reflexivity|]. split.
    + rewrite !length_fmap. apply length_map_to_list.
    + intros k c Hc. apply list_elem_of_fmap. exists c. split; [reflexivity|].
      apply list_elem_of_fmap. exists (k, c). split; [reflexivity|].
      now apply elem_of_map_to_list.
  - intros ->. eexists. split; [reflexivity|].
    intros c. rewrite list_elem_of_fmap. split.
    + intros ([k c'] & -> & Hin). exists k. now apply elem_of_map_to_list.
    + intros [k Hk]. exists (k, c). split; [reflexivity|].
      now apply elem_of_map_to_list.
Qed.

Section Listings.

Variable reverse : string -> list string -> string.
Variable absolute_uri : string -> string -> string.
Variable export_exercise :
  HttpRequest -> CourseConfig.t -> option ExerciseDict.t -> dict -> dict.
Variable export_chapter : HttpRequest -> CourseConfig.t -> dict -> dict.

Ltac run_course := unfold course, bind, CourseConfig_get, ret, raise.

Local Abbreviation course := (course reverse absolute_uri).
Local Abbreviation aplus_json :=
  (aplus_json reverse absolute_uri export_exercise export_chapter).

Lemma course_unknown request course_key w :
  courses w !! course_key = None ->
  course request course_key w = (Raise (Http404 None None), w).
Proof. intros H. run_course. now rewrite H. Qed.

Lemma course_page request course_key w config :
  courses w !! course_key = Some config ->
  is_ajax request = false ->
  course request course_key w =
  (Return (render "access/course.html"
     [("course", CtxCourse (CourseConfig.data config));
      ("exercises", CtxExercises (CourseConfig.get_exercise_list config));
      ("plus_config_url",
       CtxStr (absolute_uri (base_url request)
                 (reverse "aplus-json" [CourseConfig.key config])));
      ("build_log_url",
       CtxStr (absolute_uri (base_url request)
                 (reverse "build-log-json" [course_key])))]), w).
Proof. intros H Ha. run_course. rewrite H, Ha. reflexivity. Qed.

Lemma course_ajax request course_key w config :
  courses w !! course_key = Some config ->
  is_ajax request = true ->
  course request course_key w =
  match _filter_fields (CourseConfig.get_exercise_list config)
          ["key"; "title"] w with
  | (Return picked, w') =>
      (Return (JsonResponse (JObj
         [("ready", JBool true);
          ("course_name",
           json_of_attr (Course.name (CourseConfig.data config)));
          ("exercises", JList (map JObj picked))])), w')
  | (Raise e, w') => (Raise e, w')
  end.
Proof.
  intros H Ha. run_course. rewrite H, Ha.
  destruct (_filter_fields _ _ w) as [[picked|e] w']; reflexivity.
Qed.

Lemma pick_loop_key_title entry k t w :
  ExerciseDict.getitem entry "key" = Some k ->
  ExerciseDict.getitem entry "title" = Some t ->
  pick_loop entry ["key"; "title"] [] w =
  (Return [("key", k); ("title", t)], w).
Proof. intros Hk Ht. unfold pick_loop. rewrite Hk, Ht. reflexivity. Qed.

Lemma entries_loop_key_title exercises result w :
  Forall (complete ["key"; "title"]) exercises ->
  exists picked,
    entries_loop exercises ["key"; "title"] result w =
      (Return (result ++ picked), w) /\
    Forall2 key_and_title exercises picked.
Proof.
  revert result. induction exercises as [|entry rest IH]; intros result Hall.
  - exists []. split; [simpl; now rewrite app_nil_r | constructor].
  - inversion Hall as [|? ? Hc Hrest]; subst.
    apply complete_cons in Hc as [[k Hk] Hc].
    apply complete_cons in Hc as [[t Ht] _].
    destruct (IH (result ++ [[("key", k); ("title", t)]]) Hrest)
      as (picked & Hloop & Hp).
    exists ([("key", k); ("title", t)] :: picked). split.
    + change (entries_loop (entry :: rest) ["key"; "title"] result w)
        with (bind (pick_loop entry ["key"; "title"] [])
                (fun new_entry =>
                   entries_loop rest ["key"; "title"] (result ++ [new_entry])) w).
      unfold bind. rewrite (pick_loop_key_title _ _ _ _ Hk Ht).
      cbv beta iota. etrans; [exact Hloop|]. now rewrite <- app_assoc.
    + constructor; [|exact Hp]. now exists k, t.
Qed.

(** X5.  [course] leaves the world as it was.  It answers 404 exactly for a
    course key the store does not know, and it fails with another error only
    for an AJAX request on a course with an exercise that lacks [key] or
    [title]. *)
Theorem course_status (request : HttpRequest) (course_key : string)
  (w : World) :
  (course request course_key w).2 = w /\
  (status_code (course request course_key w).1 = 404 <->
   courses w !! course_key = None) /\
  (status_code (course request course_key w).1 = 500 <->
   is_ajax request = true /\
   exists config,
     courses w !! course_key = Some config /\
     ~ Forall (complete ["key"; "title"])
         (CourseConfig.get_exercise_list config)).
Proof.
  destruct (courses w !! course_key) as [config|] eqn:H.
  2:{ rewrite course_unknown by assumption. simpl. split; [reflexivity|].
      split; [split; reflexivity|].
      split; [discriminate | intros (_ & config & [=] & _)]. }
  destruct (is_ajax request) eqn:Ha.
  2:{ rewrite (course_page _ _ _ _ H Ha). simpl. split; [reflexivity|].
      split; [split; discriminate|].
      split; [discriminate | intros [[=] _]]. }
  rewrite (course_ajax _ _ _ _ H Ha).
  pose proof (filter_fields_total (CourseConfig.get_exercise_list config)
                ["key"; "title"] w) as Ht.
  destruct Ht as [(ds & Hrun & Hall)|(name & Hrun & Hnot)]; rewrite Hrun; simpl.
  - split; [reflexivity|]. split; [split; discriminate|].
    split; [discriminate|].
    intros (_ & config' & [= <-] & Hn). contradiction.
  - split; [reflexivity|]. split; [split; discriminate|].
    split; [|reflexivity]. intros _. split; [reflexivity|]. now exists config.
Qed.

(** X6.  For an AJAX request on a known course whose exercises all have
    [key] and [title], [course] answers [ready], the name of the course and
    one object for every exercise, in the order of the exercise list, that
    holds the [key] and the [title] of the exercise and nothing else. *)
Theorem course_lists_exercises (request : HttpRequest) (course_key : string)
  (w : World) (config : CourseConfig.t) :
  courses w !! course_key = Some config ->
  is_ajax request = true ->
  Forall (complete ["key"; "title"]) (CourseConfig.get_exercise_list config) ->
  exists picked,
    course request course_key w =
      (Return (JsonResponse (JObj
         [("ready", JBool true);
          ("course_name",
           json_of_attr (Course.name (CourseConfig.data config)));
          ("exercises", JList (map JObj picked))])), w) /\
    Forall2 key_and_title (CourseConfig.get_exercise_list config) picked.
Proof.
  intros H Ha Hall. rewrite (course_ajax _ _ _ _ H Ha).
  destruct (entries_loop_key_title _ [] w Hall) as (picked & Hrun & Hp).
  exists picked. unfold _filter_fields. rewrite Hrun. split; [reflexivity|].
  exact Hp.
Qed.

(** X7.  The page of a known course and the export of the same course, for
    the same request, point to the same build log: both build the URL from
    the base URL of the request and the course key of the request.  The
    link of the page to the export is built from the key the configuration
    carries. *)
Theorem course_and_export_agree_on_build_log (request : HttpRequest)
  (course_key : string) (w : World) (config : CourseConfig.t) :
  courses w !! course_key = Some config ->
  is_ajax request = false ->
  exists context data url,
    course request course_key w =
      (Return (render "access/course.html" context), w) /\
    aplus_json request course_key w =
      (Return (JsonResponse (JObj data)), w) /\
    PyDict.get "build_log_url" context = Some (CtxStr url) /\
    PyDict.get "build_log_url" data = Some (JStr url) /\
    url = absolute_uri (base_url request)
            (reverse "build-log-json" [course_key]) /\
    PyDict.get "plus_config_url" context =
      Some (CtxStr (absolute_uri (base_url request)
                      (reverse "aplus-json" [CourseConfig.key config]))).
Proof.
  intros H Ha. do 3 eexists.
  split; [apply (course_page _ _ _ _ H Ha)|].
  split; [apply (aplus_json_found _ _ _ _ _ _ _ _ H)|].
  split; [reflexivity|].
  split; [apply PyDictFacts.get_set_eq|].
  split; reflexivity.
Qed.

End Listings.

(** ** More on the file views *)

Module BasenameFacts.
Import PyStr.

Lemma split_no_sep sep s : occurs sep s = false -> split sep s = [s].
Proof.
  induction s as [|c s IH]; simpl; [reflexivity|].
  destruct (Ascii.eqb c sep); simpl; [discriminate|].
  intros H. now rewrite (IH H).
Qed.

(** After a separator there are at least two segments. *)
Lemma split_app_two sep dir name :
  exists seg seg' rest, split sep (dir +:+ String sep name) = seg :: seg' :: rest.
Proof.
  induction dir as [|c dir IH].
  - change ("" +:+ String sep name) with (String sep name). simpl.
    rewrite Ascii.eqb_refl.
    pose proof (PyStrFacts.split_nonempty sep name) as Hne.
    destruct (split sep name) as [|x xs]; [congruence|]. now exists "", x, xs.
  - change (String c dir +:+ String sep name)
      with (String c (dir +:+ String sep name)). simpl.
    destruct IH as (seg & seg' & rest & ->).
    destruct (Ascii.eqb c sep); eauto.
Qed.

Lemma last_split_app sep dir name :
  List.last (split sep (dir +:+ String sep name)) EmptyString =
  List.last (split sep name) EmptyString.
Proof.
  induction dir as [|c dir IH].
  - change ("" +:+ String sep name) with (String sep name). simpl.
    rewrite Ascii.eqb_refl.
    pose proof (PyStrFacts.split_nonempty sep name) as Hne.
    destruct (split sep name) as [|x xs]; [congruence | reflexivity].
  - change (String c dir +:+ String sep name)
      with (String c (dir +:+ String sep name)). simpl.
    destruct (split_app_two sep dir name) as (seg & seg' & rest & E).
    rewrite E in *. destruct (Ascii.eqb c sep); exact IH.
Qed.

Lemma basename_plain name : occurs "/" name = false -> basename name = name.
Proof. intros H. unfold basename. now rewrite (split_no_sep _ _ H). Qed.

Lemma basename_in_dir dir name :
  occurs "/" name = false -> basename (dir +:+ String "/" name) = name.
Proof.
  intros H. unfold basename. rewrite last_split_app.
  now rewrite (split_no_sep _ _ H).
Qed.

End BasenameFacts.

Lemma find_name_elem parameter paths name p :
  find_name parameter paths name = Some p ->
  p ∈ paths /\ PyStr.basename p = parameter.
Proof.
  intros H. apply find_name_Some in H as (before & after & -> & Hb & _).
  split; [|exact Hb]. apply elem_of_app. right. now left.
Qed.

Lemma find_name_is_Some parameter paths name p :
  p ∈ paths -> PyStr.basename p = parameter ->
  exists q, find_name parameter paths name = Some q.
Proof.
  intros Hin Hb. destruct (find_name parameter paths name) as [q|] eqn:E;
    [now exists q|].
  apply find_name_None in E. rewrite Forall_forall in E.
  now destruct (E p Hin).
Qed.

Lemma find_name_slash parameter paths name :
  PyStr.occurs "/" parameter = true -> find_name parameter paths name = None.
Proof.
  intros H. apply find_name_None. apply Forall_forall. intros q _ E.
  destruct (PyStrFacts.basename_spec q) as [Hq _]. congruence.
Qed.

(** X8.  A base name without a slash finds a declared path that is the name
    itself or ends in a slash and the name: [find_name] then returns a
    declared path with that base name (the first one, should several
    match). *)
Theorem find_name_finds_declared (parameter : string) (paths : list string)
  (name p : string) :
  PyStr.occurs "/" parameter = false ->
  p ∈ paths ->
  p = parameter \/ (exists dir, p = dir +:+ String "/" parameter) ->
  exists q,
    find_name parameter paths name = Some q /\
    q ∈ paths /\ PyStr.basename q = parameter.
Proof.
  intros Hs Hin Hp.
  assert (PyStr.basename p = parameter) as Hb.
  { destruct Hp as [->|[dir ->]].
    - now apply BasenameFacts.basename_plain.
    - now apply BasenameFacts.basename_in_dir. }
  destruct (find_name_is_Some parameter paths name p Hin Hb) as [q Hq].
  exists q. split; [exact Hq|]. now apply (find_name_elem _ _ name).
Qed.

Section FileViewsMore.

Variable path_to : string -> string -> string.

(** X9.  A requested base name that holds a slash matches no declared path,
    whatever the list: the view raises [Http404] and opens no file. *)
Theorem slash_in_parameter_is_not_found (kind : FileKind)
  (request : HttpRequest) (course_key exercise_key parameter : string)
  (w : World) :
  PyStr.occurs "/" parameter = true ->
  (forall paths name, find_name parameter paths name = None) /\
  (view path_to kind request course_key exercise_key parameter w).1 =
    Raise (Http404 None None) /\
  opened (view path_to kind request course_key exercise_key parameter w).2 =
    opened w.
Proof.
  intros Hs. split; [intros; now apply find_name_slash|].
  destruct (courses w !! course_key) as [config|] eqn:H1.
  2:{ rewrite view_unknown_course by assumption. split; reflexivity. }
  destruct (CourseConfig.exercise_data config exercise_key
              (keep_short (GET request !! "lang"))) as [exercise|] eqn:H2.
  2:{ rewrite (view_unknown_exercise _ _ _ _ _ _ _ _ H1 H2). split; reflexivity. }
  rewrite (view_found _ _ _ _ _ _ _ _ _ H1 H2).
  assert (located kind exercise parameter = None) as ->.
  { unfold located. destruct (file_list kind exercise); [|reflexivity].
    now apply find_name_slash. }
  split; reflexivity.
Qed.

(** X10.  The view answers exactly when the course and the exercise are
    found, a declared path has the requested base name and a readable
    regular file is at the first such path; the answer is the text of that
    file as [open] reads it, every carriage return or carriage return and
    line feed turned into one line feed, as plain text. *)
Theorem view_serves_iff (kind : FileKind) (request : HttpRequest)
  (course_key exercise_key parameter : string) (w : World)
  (response : Response) :
  (view path_to kind request course_key exercise_key parameter w).1 =
    Return response <->
  exists config exercise p raw,
    courses w !! course_key = Some config /\
    CourseConfig.exercise_data config exercise_key
      (keep_short (GET request !! "lang")) = Some exercise /\
    located kind exercise parameter = Some p /\
    p <> "" /\
    files w !! path_to (CourseConfig.key config) p = Some (RegularFile raw) /\
    response = HttpResponse (universal_newlines raw) "text/plain".
Proof.
  destruct (courses w !! course_key) as [config|] eqn:H1.
  2:{ rewrite view_unknown_course by assumption. simpl.
      split; [discriminate | intros (? & ? & ? & ? & [=] & _)]. }
  destruct (CourseConfig.exercise_data config exercise_key
              (keep_short (GET request !! "lang"))) as [exercise|] eqn:H2.
  2:{ rewrite (view_unknown_exercise _ _ _ _ _ _ _ _ H1 H2). simpl.
      split; [discriminate|].
      intros (c & e & ? & ? & [= <-] & He & _). congruence. }
  rewrite (view_found _ _ _ _ _ _ _ _ _ H1 H2).
  destruct (located kind exercise parameter) as [p|] eqn:Hl.
  2:{ simpl. split; [discriminate|].
      intros (c & e & ? & ? & [= <-] & He & Hp & _).
      rewrite H2 in He. injection He as <-. congruence. }
  destruct (PyStr.truthy p) eqn:Hp.
  2:{ simpl. split; [discriminate|].
      intros (c & e & q & ? & [= <-] & He & Hq & Hne & _).
      rewrite H2 in He. injection He as <-. rewrite Hl in Hq.
      injection Hq as <-. apply truthy_nonempty in Hne. congruence. }
  simpl. split.
  - intros Hrun. exists config, exercise, p.
    destruct (files w !! path_to (CourseConfig.key config) p)
      as [[raw| | | |]|] eqn:Hf; simpl in Hrun; try discriminate.
    injection Hrun as <-. exists raw.
    repeat split; try assumption. now apply truthy_nonempty.
  - intros (c & e & q & raw & [= <-] & He & Hq & _ & Hf & ->).
    rewrite H2 in He. injection He as <-. rewrite Hl in Hq.
    injection Hq as <-. now rewrite Hf.
Qed.

(** The log of opened files stays, or grows by the located file. *)
Lemma view_opened_cases (kind : FileKind) (request : HttpRequest)
  (course_key exercise_key parameter : string) (w : World) :
  opened (view path_to kind request course_key exercise_key parameter w).2 =
    opened w \/
  exists config exercise p,
    courses w !! course_key = Some config /\
    CourseConfig.exercise_data config exercise_key
      (keep_short (GET request !! "lang")) = Some exercise /\
    located kind exercise parameter = Some p /\
    opened (view path_to kind request course_key exercise_key parameter w).2 =
      opened w ++ [path_to (CourseConfig.key config) p].
Proof.
  destruct (courses w !! course_key) as [config|] eqn:H1.
  2:{ rewrite view_unknown_course by assumption. now left. }
  destruct (CourseConfig.exercise_data config exercise_key
              (keep_short (GET request !! "lang"))) as [exercise|] eqn:H2.
  2:{ rewrite (view_unknown_exercise _ _ _ _ _ _ _ _ H1 H2). now left. }
  rewrite (view_found _ _ _ _ _ _ _ _ _ H1 H2).
  destruct (located kind exercise parameter) as [p|] eqn:Hl; [|now left].
  destruct (PyStr.truthy p); [|now left].
  right. exists config, exercise, p.
  split; [reflexivity|]. split; [exact H2|]. split; [exact Hl|].
  reflexivity.
Qed.

(** X11.  A file the view opens is a declared one: whatever is new in the
    log of opened files is the path of the course joined with an entry of
    the file list of the exercise, and that entry has the requested base
    name. *)
Theorem view_opens_only_declared (kind : FileKind) (request : HttpRequest)
  (course_key exercise_key parameter : string) (w : World) (file : string) :
  file ∈ opened (view path_to kind request course_key exercise_key parameter w).2 ->
  file ∈ opened w \/
  exists config exercise paths p,
    courses w !! course_key = Some config /\
    CourseConfig.exercise_data config exercise_key
      (keep_short (GET request !! "lang")) = Some exercise /\
    file_list kind exercise = Some paths /\
    p ∈ paths /\
    PyStr.basename p = parameter /\
    file = path_to (CourseConfig.key config) p.
Proof.
  intros Hin.
  destruct (view_opened_cases kind request course_key exercise_key parameter w)
    as [E|(config & exercise & p & H1 & H2 & Hl & E)];
    rewrite E in Hin; [now left|].
  apply elem_of_app in Hin as [Hin|Hin]; [now left|].
  apply list_elem_of_singleton in Hin. right.
  unfold located in Hl.
  destruct (file_list kind exercise) as [paths|] eqn:Hfl; [|discriminate].
  apply find_name_elem in Hl as [Hp Hb].
  exists config, exercise, paths, p. repeat split; assumption.
Qed.

(** X12.  Once the course and the exercise are found the resolved language
    is activated before the file is looked for: it stays active also when
    the request then ends in [Http404].  The files and the store are never
    changed. *)
Theorem view_activates_language (kind : FileKind) (request : HttpRequest)
  (course_key exercise_key parameter : string) (w : World)
  (config : CourseConfig.t) (exercise : ExerciseDict.t) :
  courses w !! course_key = Some config ->
  CourseConfig.exercise_data config exercise_key
    (keep_short (GET request !! "lang")) = Some exercise ->
  active_language
    (view path_to kind request course_key exercise_key parameter w).2 =
    Some (or_course_lang (keep_short (GET request !! "lang")) config) /\
  files (view path_to kind request course_key exercise_key parameter w).2 =
    files w.
Proof.
  intros H1 H2. rewrite (view_found _ _ _ _ _ _ _ _ _ H1 H2).
  destruct (located kind exercise parameter) as [p|]; [|split; reflexivity].
  destruct (PyStr.truthy p); split; reflexivity.
Qed.

End FileViewsMore.

(** ** More on the language *)

Lemma keep_short_prefix s :
  keep_short (Some (PyStr.prefix 2 s)) = keep_short (Some s).
Proof. destruct s as [|a [|b [|c s]]]; reflexivity. Qed.

Lemma prefix_length s : String.length (PyStr.prefix 2 s) <= 2.
Proof. destruct s as [|a [|b [|c s]]]; simpl; lia. Qed.

Lemma get_course_exercise_lang_prefix course_key exercise_key s w :
  _get_course_exercise_lang course_key exercise_key (Some s) w =
  _get_course_exercise_lang course_key exercise_key (Some (PyStr.prefix 2 s)) w.
Proof.
  unfold _get_course_exercise_lang. now rewrite keep_short_prefix.
Qed.

(** X13.  A language code is read through its first two characters only:
    the resolution, and with it both file views, answer a code and its
    two-character prefix alike, in the result and in the world they leave. *)
Theorem lang_code_read_by_prefix (course_key exercise_key s : string)
  (w : World) :
  _get_course_exercise_lang course_key exercise_key (Some s) w =
    _get_course_exercise_lang course_key exercise_key
      (Some (PyStr.prefix 2 s)) w /\
  forall path_to kind request request' parameter,
    GET request !! "lang" = Some s ->
    GET request' !! "lang" = Some (PyStr.prefix 2 s) ->
    view path_to kind request course_key exercise_key parameter w =
    view path_to kind request' course_key exercise_key parameter w.
Proof.
  split; [apply get_course_exercise_lang_prefix|].
  intros path_to kind request request' parameter H H'.
  destruct kind; unfold view, exercise_model, exercise_template, bind;
    rewrite H, H', get_course_exercise_lang_prefix; reflexivity.
Qed.

(** X14.  What [_get_course_exercise_lang] returns: the configuration the
    store holds for the course key, and a language that is the one it has
    just activated, that is at most two characters long or the default of
    the course, and that is empty only if that default is empty. *)
Theorem resolved_language_bounds (course_key exercise_key : string)
  (lang_code : option string) (w w' : World) (config : CourseConfig.t)
  (exercise : ExerciseDict.t) (lang : string) :
  _get_course_exercise_lang course_key exercise_key lang_code w =
    (Return (config, exercise, lang), w') ->
  courses w !! course_key = Some config /\
  active_language w' = Some lang /\
  (String.length lang <= 2 \/ lang = CourseConfig.lang config) /\
  (lang = "" -> CourseConfig.lang config = "") /\
  (lang_code = None -> lang = CourseConfig.lang config).
Proof.
  intros Hrun.
  destruct (courses w !! course_key) as [c|] eqn:H1.
  2:{ rewrite get_course_exercise_lang_unknown_course in Hrun by assumption.
      discriminate. }
  destruct (CourseConfig.exercise_data c exercise_key (keep_short lang_code))
    as [e|] eqn:H2.
  2:{ rewrite (get_course_exercise_lang_unknown_exercise _ _ _ _ _ H1 H2) in Hrun.
      discriminate. }
  rewrite (get_course_exercise_lang_found _ _ _ _ _ _ H1 H2) in Hrun.
  injection Hrun as <- <- <- <-. split; [reflexivity|]. split; [reflexivity|].
  destruct lang_code as [s|].
  - destruct (decide (s = "")) as [->|Hne].
    + split; [right; reflexivity|]. split; [intros H; exact H | discriminate].
    + rewrite (resolved_present s c Hne). split; [|split].
      * left. apply prefix_length.
      * destruct s; [congruence | discriminate].
      * discriminate.
  - split; [right; reflexivity|]. split; [intros H; exact H | reflexivity].
Qed.

(** ** The shape of the exported tree *)

Lemma Node_deep_ind (P : Node.t -> Prop) :
  (forall o, Forall P (Node.children o) -> P o) -> forall o, P o.
Proof.
  intros step. fix IH 1. intros [kind key cfg attrs cs].
  apply step. simpl. revert cs. fix IHcs 1. intros [|c cs].
  - constructor.
  - constructor; [apply IH | apply IHcs].
Qed.

Section TreeShape.

Variable reverse : string -> list string -> string.
Variable absolute_uri : string -> string -> string.
Variable export_exercise :
  HttpRequest -> CourseConfig.t -> option ExerciseDict.t -> dict -> dict.
Variable export_chapter : HttpRequest -> CourseConfig.t -> dict -> dict.

Local Abbreviation children_recursion :=
  (children_recursion export_exercise export_chapter).
Local Abbreviation export_child := (export_child export_exercise export_chapter).
Local Abbreviation export_module := (export_module export_exercise export_chapter).
Local Abbreviation aplus_json :=
  (aplus_json reverse absolute_uri export_exercise export_chapter).

Lemma children_mirror request config o :
  Forall2 Mirrors (Node.children o) (children_recursion request config o).
Proof.
  induction o as [o IH] using Node_deep_ind.
  rewrite children_recursion_map. apply Forall2_fmap_r.
  apply Forall_Forall2_diag. eapply Forall_impl; [exact IH|].
  intros c Hc. econstructor; [apply PyDictFacts.get_set_eq | exact Hc].
Qed.


End TreeShape.

(** ** The further properties on the demo course *)

Ltac demo_complete :=
  repeat (first [ apply Forall_nil_2
                | apply Forall_cons_2
                | (eexists; vm_compute; reflexivity) ]).

Lemma filter_fields_picks_witness :
  exists result,
    _filter_fields [Demo.ex1_dict; Demo.ex2_lang "fi"] ["key"; "title"]
      Demo.world = (Return result, Demo.world) /\
    List.length result = 2 /\
    Forall2 (picked_from ["key"; "title"])
      [Demo.ex1_dict; Demo.ex2_lang "fi"] result.
Proof.
  apply (filter_fields_picks [Demo.ex1_dict; Demo.ex2_lang "fi"]
           ["key"; "title"] Demo.world).
  unfold complete. demo_complete.
Defined.

Lemma filter_fields_key_error_witness :
  _filter_fields ([Demo.ex1_dict] ++ DemoMore.untitled :: [Demo.ex2_root])
    (["key"] ++ "title" :: []) Demo.world =
  (Raise (KeyError "title"), Demo.world).
Proof.
  apply (filter_fields_key_error [Demo.ex1_dict] DemoMore.untitled
           [Demo.ex2_root] ["key"] "title" [] Demo.world).
  - unfold complete. demo_complete.
  - unfold complete. demo_complete.
  - reflexivity.
Defined.

Lemma course_lists_exercises_witness :
  exists picked,
    course Demo.reverse Demo.absolute_uri Demo.request "demo" Demo.world =
      (Return (JsonResponse (JObj
         [("ready", JBool true);
          ("course_name",
           json_of_attr (Course.name (CourseConfig.data Demo.config)));
          ("exercises", JList (map JObj picked))])), Demo.world) /\
    Forall2 key_and_title (CourseConfig.get_exercise_list Demo.config) picked.
Proof.
  apply (course_lists_exercises Demo.reverse Demo.absolute_uri Demo.request
           "demo" Demo.world Demo.config).
  - vm_compute. reflexivity.
  - reflexivity.
  - unfold complete. demo_complete.
Defined.

Lemma course_and_export_agree_witness :
  exists context data url,
    course Demo.reverse Demo.absolute_uri DemoMore.page_request "demo"
      Demo.world = (Return (render "access/course.html" context), Demo.world) /\
    aplus_json Demo.reverse Demo.absolute_uri Demo.export_exercise
      Demo.export_chapter DemoMore.page_request "demo" Demo.world =
      (Return (JsonResponse (JObj data)), Demo.world) /\
    PyDict.get "build_log_url" context = Some (CtxStr url) /\
    PyDict.get "build_log_url" data = Some (JStr url) /\
    url = Demo.absolute_uri (base_url DemoMore.page_request)
            (Demo.reverse "build-log-json" ["demo"]) /\
    PyDict.get "plus_config_url" context =
      Some (CtxStr (Demo.absolute_uri (base_url DemoMore.page_request)
                      (Demo.reverse "aplus-json"
                         [CourseConfig.key Demo.config]))).
Proof.
  apply (course_and_export_agree_on_build_log Demo.reverse Demo.absolute_uri
           Demo.export_exercise Demo.export_chapter DemoMore.page_request
           "demo" Demo.world Demo.config).
  - vm_compute. reflexivity.
  - reflexivity.
Defined.

Lemma find_name_finds_declared_witness :
  exists q,
    find_name "a.py" ["files/b.py"; "fi/a.py"; "en/a.py"] "a.py" = Some q /\
    q ∈ ["files/b.py"; "fi/a.py"; "en/a.py"] /\ PyStr.basename q = "a.py".
Proof.
  apply (find_name_finds_declared "a.py" ["files/b.py"; "fi/a.py"; "en/a.py"]
           "a.py" "en/a.py").
  - reflexivity.
  - do 2 apply list_elem_of_further. apply list_elem_of_here.
  - right. exists "en". reflexivity.
Defined.

Lemma slash_in_parameter_witness :
  (forall paths name, find_name "files/a.py" paths name = None) /\
  (view Demo.path_to ModelFile Demo.request "demo" "ex1" "files/a.py"
     Demo.world).1 = Raise (Http404 None None) /\
  opened (view Demo.path_to ModelFile Demo.request "demo" "ex1" "files/a.py"
            Demo.world).2 = opened Demo.world.
Proof.
  apply (slash_in_parameter_is_not_found Demo.path_to ModelFile Demo.request
           "demo" "ex1" "files/a.py" Demo.world).
  reflexivity.
Defined.

Lemma view_opens_only_declared_witness :
  "/srv/courses/demo/files/a.py" ∈ opened Demo.world \/
  exists config exercise paths p,
    courses Demo.world !! "demo" = Some config /\
    CourseConfig.exercise_data config "ex1"
      (keep_short (GET Demo.request !! "lang")) = Some exercise /\
    file_list ModelFile exercise = Some paths /\
    p ∈ paths /\
    PyStr.basename p = "a.py" /\
    "/srv/courses/demo/files/a.py" = Demo.path_to (CourseConfig.key config) p.
Proof.
  apply (view_opens_only_declared Demo.path_to ModelFile Demo.request
           "demo" "ex1" "a.py" Demo.world "/srv/courses/demo/files/a.py").
  vm_compute. apply list_elem_of_here.
Defined.

Lemma view_activates_language_witness :
  (view Demo.path_to ModelFile (Demo.request_lang "en-GB") "demo" "ex1" "b.py"
     Demo.world).1 = Raise (Http404 None None) /\
  active_language
    (view Demo.path_to ModelFile (Demo.request_lang "en-GB") "demo" "ex1"
       "b.py" Demo.world).2 = Some "en" /\
  files (view Demo.path_to ModelFile (Demo.request_lang "en-GB") "demo" "ex1"
           "b.py" Demo.world).2 = files Demo.world.
Proof.
  split; [vm_compute; reflexivity|].
  apply (view_activates_language Demo.path_to ModelFile
           (Demo.request_lang "en-GB") "demo" "ex1" "b.py" Demo.world
           Demo.config Demo.ex1_dict); vm_compute; reflexivity.
Defined.

Lemma resolved_language_bounds_witness :
  courses Demo.world !! "demo" = Some Demo.config /\
  active_language (set_active_language "en" Demo.world) = Some "en" /\
  (String.length "en" <= 2 \/ "en" = CourseConfig.lang Demo.config) /\
  ("en" = "" -> CourseConfig.lang Demo.config = "") /\
  (Some "en-GB" = None -> "en" = CourseConfig.lang Demo.config).
Proof.
  apply (resolved_language_bounds "demo" "ex1" (Some "en-GB") Demo.world
           (set_active_language "en" Demo.world) Demo.config Demo.ex1_dict "en").
  vm_compute. reflexivity.
Defined.

(** * The object-level export *)

Example demo_obj_aplus_json :
  (Obj.aplus_json DemoObj.reverse DemoObj.absolute_uri DemoObj.export_exercise
     DemoObj.export_chapter Demo.request "demo" DemoObj.eworld).1 =
  (aplus_json Demo.reverse Demo.absolute_uri Demo.export_exercise
     Demo.export_chapter Demo.request "demo" Demo.world).1.
Proof. vm_compute. reflexivity. Qed.

Module ObjFacts.
Import Obj.

(** ** What a computation keeps *)

Section Keeping.

Variable R : EWorld -> EWorld -> Prop.
Hypothesis R_refl : forall ew, R ew ew.
Hypothesis R_trans : forall a b c, R a b -> R b c -> R a c.

Lemma Keeps_ret {A} (P : A -> Prop) a : P a -> Keeps R P (ret a).
Proof. intros H. split; [intros ew; apply R_refl | now intros ew b [= <-]]. Qed.

Lemma Keeps_raise {A} (P : A -> Prop) e : Keeps R P (raise e).
Proof. split; [intros ew; apply R_refl | intros ew b [=]]. Qed.

Lemma Keeps_bind {A B} (P : A -> Prop) (Q : B -> Prop) (m : M A) (f : A -> M B) :
  Keeps R P m -> (forall a, P a -> Keeps R Q (f a)) -> Keeps R Q (bind m f).
Proof.
  intros [Hm Hp] Hf. split.
  - intros ew. unfold bind. specialize (Hm ew). specialize (Hp ew).
    destruct (m ew) as [[a|e] ew1]; simpl in *; [|exact Hm].
    destruct (Hf a (Hp a eq_refl)) as [Hfa _].
    exact (R_trans _ _ _ (Hfa ew1) Hm).
  - intros ew b. unfold bind. specialize (Hp ew).
    destruct (m ew) as [[a|e] ew1]; simpl in *; [|discriminate].
    destruct (Hf a (Hp a eq_refl)) as [_ Hq]. apply Hq.
Qed.

Lemma Keeps_weaken {A} (P Q : A -> Prop) (m : M A) :
  (forall a, P a -> Q a) -> Keeps R P m -> Keeps R Q m.
Proof. intros H [Hm Hp]. split; [exact Hm | intros ew a Ha; eauto]. Qed.

(** A write to a dictionary that is not the store's changes no world. *)
Lemma Keeps_setitem data k v : owned data -> Keeps R owned (setitem data k v).
Proof.
  intros Ho. split.
  - intros ew. destruct data as [[]| | |]; simpl; try apply R_refl.
    destruct Ho.
  - intros ew a. destruct data as [[]| | |]; simpl; intros [= <-];
      first [exact I | exact Ho].
Qed.

Lemma Keeps_get course_key :
  Keeps R (fun _ => True) (lift (CourseConfig_get course_key)).
Proof.
  split; [|easy]. intros [w ws]. apply R_refl.
Qed.

Lemma Keeps_json_response data : Keeps R (fun _ => True) (json_response data).
Proof.
  split; [|easy]. intros ew. unfold json_response.
  destruct (serialize _ _ _); apply R_refl.
Qed.

Section Collaborators.

Variable reverse : string -> list string -> M string.
Variable absolute_uri : string -> string -> M string.
Variable export_exercise :
  HttpRequest -> CourseConfig.t -> option pyval -> pyval -> M pyval.
Variable export_chapter : HttpRequest -> CourseConfig.t -> pyval -> M pyval.

Hypothesis reverse_keeps :
  forall name args, Keeps R (fun _ => True) (reverse name args).
Hypothesis absolute_uri_keeps :
  forall base location, Keeps R (fun _ => True) (absolute_uri base location).
Hypothesis export_exercise_keeps :
  forall request config exercise of_,
    owned of_ -> Keeps R owned (export_exercise request config exercise of_).
Hypothesis export_chapter_keeps :
  forall request config of_,
    owned of_ -> Keeps R owned (export_chapter request config of_).

Lemma children_recursion_keeps request config parent :
  Keeps R (fun _ => True)
    (children_recursion export_exercise export_chapter request config parent).
Proof.
  induction parent as [parent IH] using Node_deep_ind.
  destruct parent as [kind key cfg attrs cs]. simpl in *.
  match goal with
  | |- Keeps R _ (?loop cs []) =>
      enough (forall os result,
                 Forall (fun o =>
                   Keeps R (fun _ : list pyval => True)
                     (children_recursion export_exercise export_chapter
                        request config o)) os ->
                 Keeps R (fun _ : list pyval => True) (loop os result))
        as H by (apply H; exact IH)
  end.
  clear IH. induction os as [|o os IHos]; intros result Hall.
  - now apply Keeps_ret.
  - inversion Hall as [|? ? Ho Hos]; subst.
    apply (Keeps_bind owned).
    { destruct (Node.is_Exercise o && attr_truthy (Node.config o));
        [now apply export_exercise_keeps|].
      destruct (Node.is_Chapter o); [now apply export_chapter_keeps|].
      now apply Keeps_ret. }
    intros data Hdata. apply (Keeps_bind (fun _ => True)); [exact Ho|].
    intros children _. apply (Keeps_bind owned); [now apply Keeps_setitem|].
    intros data' _. now apply IHos.
Qed.

Lemma modules_loop_keeps request config ms modules :
  Keeps R (fun _ => True)
    (modules_loop export_exercise export_chapter request config ms modules).
Proof.
  revert modules. induction ms as [|m ms IH]; intros modules; simpl.
  - now apply Keeps_ret.
  - apply (Keeps_bind (fun _ => True)); [apply children_recursion_keeps|].
    intros children _. apply (Keeps_bind owned); [now apply Keeps_setitem|].
    intros mf _. apply IH.
Qed.

Lemma aplus_json_keeps request course_key :
  Keeps R (fun _ => True)
    (aplus_json reverse absolute_uri export_exercise export_chapter
       request course_key).
Proof.
  unfold aplus_json. apply (Keeps_bind (fun _ => True)); [apply Keeps_get|].
  intros [config|] _; [|apply Keeps_raise].
  apply (Keeps_bind (fun _ => True)); [apply modules_loop_keeps|].
  intros modules _. apply (Keeps_bind owned); [now apply Keeps_setitem|].
  intros data Hdata. apply (Keeps_bind (fun _ => True)); [apply reverse_keeps|].
  intros location _.
  apply (Keeps_bind (fun _ => True)); [apply absolute_uri_keeps|].
  intros url _. apply (Keeps_bind owned); [now apply Keeps_setitem|].
  intros data' _. apply Keeps_json_response.
Qed.

End Collaborators.

End Keeping.

Lemma store_kept_refl ew : store_kept ew ew.
Proof. split; reflexivity. Qed.

Lemma store_kept_trans a b c : store_kept a b -> store_kept b c -> store_kept a c.
Proof. intros [H1 H2] [H3 H4]. split; congruence. Qed.

Lemma same_inputs_refl ew : same_inputs ew ew.
Proof. repeat split. Qed.

Lemma same_inputs_sym a b : same_inputs a b -> same_inputs b a.
Proof. intros (H1 & H2 & H3 & H4). repeat split; congruence. Qed.

Lemma same_inputs_trans a b c : same_inputs a b -> same_inputs b c -> same_inputs a c.
Proof.
  intros (H1 & H2 & H3 & H4) (H5 & H6 & H7 & H8). repeat split; congruence.
Qed.

(** ** What a computation reads *)

Lemma Reads_ret {A} (a : A) : Reads (ret a).
Proof. intros ew ew' H. split; [reflexivity | exact H]. Qed.

Lemma Reads_raise {A} e : Reads (@raise A e).
Proof. intros ew ew' H. split; [reflexivity | exact H]. Qed.

Lemma Reads_bind {A B} (m : M A) (f : A -> M B) :
  Reads m -> (forall a, Reads (f a)) -> Reads (bind m f).
Proof.
  intros Hm Hf ew ew' H. unfold bind. destruct (Hm ew ew' H) as [H1 H2].
  destruct (m ew) as [[a|e] ew1], (m ew') as [[a'|e'] ew1'];
    simpl in *; try discriminate.
  - injection H1 as <-. now apply Hf.
  - injection H1 as <-. split; [reflexivity | exact H2].
Qed.

(** Also a write to the store is the same write in both worlds. *)
Lemma Reads_setitem data k v : Reads (setitem data k v).
Proof.
  intros ew ew' H. destruct data as [[]| | |]; simpl;
    try (split; [reflexivity | exact H]).
  split; [reflexivity|]. destruct H as (H1 & H2 & H3 & H4).
  repeat split; simpl; congruence.
Qed.

Lemma Reads_get course_key : Reads (lift (CourseConfig_get course_key)).
Proof.
  intros [w ws] [w' ws'] H. pose proof H as (H1 & _). simpl in *.
  unfold lift, CourseConfig_get. simpl. rewrite H1. split; [reflexivity | exact H].
Qed.

Lemma cached_dict_same ew ew' :
  same_inputs ew ew' -> cached_dict ew = cached_dict ew'.
Proof.
  destruct ew as [[cs fs al op] ws], ew' as [[cs' fs' al' op'] ws'].
  intros (H1 & _ & _ & H4). simpl in *. subst. reflexivity.
Qed.

Lemma Reads_json_response data : Reads (json_response data).
Proof.
  intros ew ew' H. unfold json_response.
  rewrite (cached_dict_same _ _ H). destruct H as (H1 & H2 & H3 & H4).
  rewrite H4. destruct (serialize _ _ _); (split; [reflexivity|]);
    repeat split; assumption.
Qed.

Section Reading.

Variable reverse : string -> list string -> M string.
Variable absolute_uri : string -> string -> M string.
Variable export_exercise :
  HttpRequest -> CourseConfig.t -> option pyval -> pyval -> M pyval.
Variable export_chapter : HttpRequest -> CourseConfig.t -> pyval -> M pyval.

Hypothesis reverse_reads : forall name args, Reads (reverse name args).
Hypothesis absolute_uri_reads :
  forall base location, Reads (absolute_uri base location).
Hypothesis export_exercise_reads :
  forall request config exercise of_,
    Reads (export_exercise request config exercise of_).
Hypothesis export_chapter_reads :
  forall request config of_, Reads (export_chapter request config of_).

Lemma children_recursion_reads request config parent :
  Reads (children_recursion export_exercise export_chapter request config parent).
Proof.
  induction parent as [parent IH] using Node_deep_ind.
  destruct parent as [kind key cfg attrs cs]. simpl in *.
  match goal with
  | |- Reads (?loop cs []) =>
      enough (forall os result,
                 Forall (fun o =>
                   Reads (children_recursion export_exercise export_chapter
                            request config o)) os ->
                 Reads (loop os result))
        as H by (apply H; exact IH)
  end.
  clear IH. induction os as [|o os IHos]; intros result Hall.
  - apply Reads_ret.
  - inversion Hall as [|? ? Ho Hos]; subst.
    apply Reads_bind.
    { destruct (Node.is_Exercise o && attr_truthy (Node.config o));
        [apply export_exercise_reads|].
      destruct (Node.is_Chapter o); [apply export_chapter_reads|].
      apply Reads_ret. }
    intros data. apply Reads_bind; [exact Ho|].
    intros children. apply Reads_bind; [apply Reads_setitem|].
    intros data'. now apply IHos.
Qed.

Lemma modules_loop_reads request config ms modules :
  Reads (modules_loop export_exercise export_chapter request config ms modules).
Proof.
  revert modules. induction ms as [|m ms IH]; intros modules; simpl.
  - apply Reads_ret.
  - apply Reads_bind; [apply children_recursion_reads|].
    intros children. apply Reads_bind; [apply Reads_setitem|].
    intros mf. apply IH.
Qed.

Lemma aplus_json_reads request course_key :
  Reads (aplus_json reverse absolute_uri export_exercise export_chapter
           request course_key).
Proof.
  unfold aplus_json. apply Reads_bind; [apply Reads_get|].
  intros [config|]; [|apply Reads_raise].
  apply Reads_bind; [apply modules_loop_reads|].
  intros modules. apply Reads_bind; [apply Reads_setitem|].
  intros data. apply Reads_bind; [apply reverse_reads|].
  intros location. apply Reads_bind; [apply absolute_uri_reads|].
  intros url. apply Reads_bind; [apply Reads_setitem|].
  intros data'. apply Reads_json_response.
Qed.

End Reading.

Lemma plain_entries_embed d : plain_entries (embed_dict d) = Some d.
Proof.
  induction d as [|[k j] d IH]; simpl; [reflexivity|]. now rewrite IH.
Qed.

Lemma deref_exercise_ref config key :
  deref config (exercise_ref config key) =
  CourseConfig.exercise_config config key.
Proof.
  unfold exercise_ref. destruct (CourseConfig.exercise_config config key) eqn:E;
    simpl; [exact E | reflexivity].
Qed.

Lemma Denotes_json j : Denotes (PJson j) j.
Proof. intros fuel cached. reflexivity. Qed.

Lemma Denotes_list vs js : Forall2 Denotes vs js -> Denotes (PList vs) (JList js).
Proof.
  intros H fuel cached. simpl.
  induction H as [|v j vs js Hv _ IH]; simpl; [reflexivity|].
  specialize (Hv fuel cached). simpl in Hv. rewrite Hv.
  destruct (_ vs) as [js'|]; simpl in *; [|discriminate].
  now injection IH as ->.
Qed.

Lemma Denotes_dict d dj :
  Forall2 entry_denotes d dj -> Denotes (PDict d) (JObj dj).
Proof.
  intros H fuel cached. simpl.
  induction H as [|[k v] [k' j] d dj [Hk Hv] _ IH]; simpl; [reflexivity|].
  simpl in Hk. subst k'. specialize (Hv fuel cached). simpl in Hv. rewrite Hv.
  destruct (_ d) as [dj'|]; simpl in *; [|discriminate].
  now injection IH as ->.
Qed.

Lemma entry_denotes_embed d : Forall2 entry_denotes (embed_dict d) d.
Proof.
  induction d as [|[k j] d IH]; constructor; [|exact IH].
  split; [reflexivity | apply Denotes_json].
Qed.

Lemma entry_denotes_set k v j d dj :
  Denotes v j -> Forall2 entry_denotes d dj ->
  Forall2 entry_denotes (PyDict.set k v d) (PyDict.set k j dj).
Proof.
  intros Hv H. induction H as [|[k1 v1] [k2 j1] d dj [Hk H1] Hrest IH]; simpl.
  - constructor; [now split | constructor].
  - simpl in Hk. subst k2. destruct (String.eqb k1 k).
    + constructor; [now split | exact Hrest].
    + constructor; [now split | exact IH].
Qed.

(** A view that runs on the world alone makes no write to a dictionary of
    the store; it keeps the store when it keeps the courses. *)
Lemma lift_store_kept {A} (m : WorldM A) :
  preserves_store m -> forall ew, store_kept (lift m ew).2 ew.
Proof.
  intros H [w ws]. unfold lift. simpl. specialize (H w).
  destruct (m w) as [o w']. split; [exact H | reflexivity].
Qed.

End ObjFacts.

(** ** The export on values is the export on objects *)

Section Refinement.

Variable url_of : string -> list string -> string.
Variable join_url : string -> string -> string.
Variable transform_exercise :
  HttpRequest -> CourseConfig.t -> option ExerciseDict.t -> dict -> dict.
Variable transform_chapter : HttpRequest -> CourseConfig.t -> dict -> dict.

Local Abbreviation obj_children :=
  (Obj.children_recursion (Obj.pure_export_exercise transform_exercise)
     (Obj.pure_export_chapter transform_chapter)).
Local Abbreviation obj_modules :=
  (Obj.modules_loop (Obj.pure_export_exercise transform_exercise)
     (Obj.pure_export_chapter transform_chapter)).
Local Abbreviation val_child :=
  (export_child transform_exercise transform_chapter).
Local Abbreviation val_module :=
  (export_module transform_exercise transform_chapter).

Lemma obj_children_denote request config parent ew :
  exists vs,
    obj_children request config parent ew = (Return vs, ew) /\
    Forall2 Obj.Denotes vs (map (val_child request config) (Node.children parent)).
Proof.
  revert ew. induction parent as [parent IH] using Node_deep_ind. intros ew.
  destruct parent as [kind key cfg attrs cs].
  cbn [Obj.children_recursion Node.children] in *.
  match goal with
  | |- exists vs, ?loop cs [] ew = _ /\ _ => set (L := loop)
  end.
  enough (forall os result js,
             Forall (fun o => forall ew, exists vs,
               obj_children request config o ew = (Return vs, ew) /\
               Forall2 Obj.Denotes vs
                 (map (val_child request config) (Node.children o))) os ->
             Forall2 Obj.Denotes result js ->
             exists vs,
               L os result ew = (Return vs, ew) /\
               Forall2 Obj.Denotes vs
                 (js ++ map (val_child request config) os))
    as H by (apply (H cs [] []); [exact IH | constructor]).
  clear IH. induction os as [|o os IHos]; intros result js Hall Hres.
  - exists result. split; [reflexivity | now rewrite app_nil_r].
  - inversion Hall as [|? ? Ho Hos]; subst.
    destruct (Ho ew) as (vs' & Hrun & Hvs').
    set (of_ := pydantic_dict ["children"] (Node.fields o)).
    set (d := transform transform_exercise transform_chapter request config o of_).
    destruct (IHos (result ++
                 [Obj.PDict (PyDict.set "children" (Obj.PList vs') (Obj.embed_dict d))])
                (js ++ [val_child request config o]) Hos) as (vs & Hloop & Hvs).
    { apply Forall2_app; [exact Hres|]. constructor; [|constructor].
      unfold export_child. rewrite children_recursion_map.
      apply ObjFacts.Denotes_dict. apply ObjFacts.entry_denotes_set;
        [now apply ObjFacts.Denotes_list | apply ObjFacts.entry_denotes_embed]. }
    exists vs. split; [|now rewrite <- app_assoc in Hvs].
    rewrite <- Hloop.
    assert ((if Node.is_Exercise o && attr_truthy (Node.config o)
             then Obj.pure_export_exercise transform_exercise request config
                    (Obj.exercise_ref config (Node.key o))
                    (Obj.PDict (Obj.embed_dict of_))
             else if Node.is_Chapter o
                  then Obj.pure_export_chapter transform_chapter request config
                         (Obj.PDict (Obj.embed_dict of_))
                  else Obj.ret (Obj.PDict (Obj.embed_dict of_))) ew =
            (Return (Obj.PDict (Obj.embed_dict d)), ew)) as Hdata.
    { subst d. unfold transform, Obj.pure_export_exercise,
        Obj.pure_export_chapter, Obj.plain_dict.
      rewrite ObjFacts.plain_entries_embed, ObjFacts.deref_exercise_ref.
      destruct (Node.is_Exercise o && attr_truthy (Node.config o));
        [reflexivity|]. destruct (Node.is_Chapter o); reflexivity. }
    change (L (o :: os) result ew) with
      (Obj.bind
         (if Node.is_Exercise o && attr_truthy (Node.config o)
          then Obj.pure_export_exercise transform_exercise request config
                 (Obj.exercise_ref config (Node.key o))
                 (Obj.PDict (Obj.embed_dict of_))
          else if Node.is_Chapter o
               then Obj.pure_export_chapter transform_chapter request config
                      (Obj.PDict (Obj.embed_dict of_))
               else Obj.ret (Obj.PDict (Obj.embed_dict of_)))
         (fun data =>
            Obj.bind (obj_children request config o)
              (fun children =>
                 Obj.bind (Obj.setitem data "children" (Obj.PList children))
                   (fun data => L os (result ++ [data])))) ew).
    unfold Obj.bind at 1. rewrite Hdata.
    unfold Obj.bind at 1. rewrite Hrun. reflexivity.
Qed.

Lemma obj_modules_denote request config ms ew :
  forall modules js,
    Forall2 Obj.Denotes modules js ->
    exists vs,
      obj_modules request config ms modules ew = (Return vs, ew) /\
      Forall2 Obj.Denotes vs (js ++ map (val_module request config) ms).
Proof.
  induction ms as [|m ms IH]; intros modules js Hres.
  - exists modules. split; [reflexivity | now rewrite app_nil_r].
  - destruct (obj_children_denote request config m ew) as (vs' & Hrun & Hvs').
    set (mf := pydantic_dict ["children"] (Node.fields m)).
    destruct (IH (modules ++
                 [Obj.PDict (PyDict.set "children" (Obj.PList vs') (Obj.embed_dict mf))])
                (js ++ [val_module request config m])) as (vs & Hloop & Hvs).
    { apply Forall2_app; [exact Hres|]. constructor; [|constructor].
      unfold export_module. rewrite children_recursion_map.
      apply ObjFacts.Denotes_dict. apply ObjFacts.entry_denotes_set;
        [now apply ObjFacts.Denotes_list | apply ObjFacts.entry_denotes_embed]. }
    exists vs. split; [|now rewrite <- app_assoc in Hvs].
    rewrite <- Hloop. cbn [Obj.modules_loop].
    unfold Obj.bind at 1. rewrite Hrun. reflexivity.
Qed.

(** Run with collaborators that have no effect and answer with a new
    dictionary, the export on objects answers what the export on values
    answers, and leaves the world and the store as they were. *)
Theorem obj_aplus_json_refines request course_key ew :
  Obj.aplus_json (Obj.pure2 url_of) (Obj.pure2 join_url)
    (Obj.pure_export_exercise transform_exercise)
    (Obj.pure_export_chapter transform_chapter) request course_key ew =
  ((aplus_json url_of join_url transform_exercise transform_chapter
      request course_key (Obj.world ew)).1, ew).
Proof.
  destruct ew as [w ws]. unfold Obj.aplus_json. unfold Obj.bind at 1.
  unfold Obj.lift, CourseConfig_get. cbn [Obj.world Obj.cache_writes].
  destruct (courses w !! course_key) as [config|] eqn:E.
  - rewrite (aplus_json_found _ _ _ _ _ _ _ _ E). cbn [fst].
    destruct (obj_modules_denote request config
                (Course.modules (CourseConfig.data config))
                {| Obj.world := w; Obj.cache_writes := ws |} [] [])
      as (vs & Hrun & Hvs); [constructor|].
    unfold Obj.bind at 1. rewrite Hrun.
    unfold Obj.bind, Obj.setitem, Obj.pure2, Obj.ret, Obj.json_response.
    cbn [Obj.cache_writes].
    match goal with
    | |- context [Obj.serialize _ ?c ?v] =>
        assert (Obj.Denotes v
                  (JObj (PyDict.set "build_log_url"
                           (JStr (join_url (base_url request)
                                    (url_of "build-log-json" [course_key])))
                           (PyDict.set "modules"
                              (JList (map (val_module request config)
                                        (Course.modules (CourseConfig.data config))))
                              (pydantic_dict ["modules"; "static_dir"]
                                 (Course.fields (CourseConfig.data config)))))))
          as Hden
    end.
    { apply ObjFacts.Denotes_dict. apply ObjFacts.entry_denotes_set;
        [apply ObjFacts.Denotes_json|].
      apply ObjFacts.entry_denotes_set;
        [now apply ObjFacts.Denotes_list | apply ObjFacts.entry_denotes_embed]. }
    change (2 + List.length ws) with (S (1 + List.length ws)).
    rewrite Hden. reflexivity.
  - rewrite (aplus_json_unknown _ _ _ _ _ _ _ E). reflexivity.
Qed.

End Refinement.



(** ** The store and the repeated export *)


(** The condition on the transforms is needed: a transform that returns the
    dictionary of the store makes the export write [children] into the
    store. *)
Lemma in_place_transform_writes_store :
  Obj.cache_writes
    (Obj.aplus_json DemoObj.reverse DemoObj.absolute_uri
       DemoObj.export_exercise_in_place DemoObj.export_chapter Demo.request
       "demo" DemoObj.eworld).2 =
    [ {| Obj.cw_course := "demo"; Obj.cw_exercise := "ex2";
         Obj.cw_field := "children"; Obj.cw_value := Obj.PList [] |} ] /\
  ~ Obj.store_kept
      (Obj.aplus_json DemoObj.reverse DemoObj.absolute_uri
         DemoObj.export_exercise_in_place DemoObj.export_chapter Demo.request
         "demo" DemoObj.eworld).2 DemoObj.eworld.
Proof.
  split; [vm_compute; reflexivity|]. intros [_ H]. vm_compute in H.
  discriminate.
Qed.


(** The conditions on the collaborators are needed: a transform that
    numbers its answers makes the second export differ from the first. *)
Lemma numbered_export_differs :
  let run := Obj.aplus_json DemoObj.reverse DemoObj.absolute_uri
               DemoObj.export_exercise DemoObj.export_chapter_numbered
               Demo.request "demo" in
  (run (run DemoObj.eworld).2).1 <> (run DemoObj.eworld).1.
Proof. vm_compute. intros [=]. Qed.

Lemma demo_collaborators_keep R :
  (forall ew, R ew ew) ->
  Obj.collaborators_keep R DemoObj.reverse DemoObj.absolute_uri
    DemoObj.export_exercise DemoObj.export_chapter.
Proof.
  intros R_refl. split; [|split; [|split]].
  - intros name args. now apply ObjFacts.Keeps_ret.
  - intros base location. now apply ObjFacts.Keeps_ret.
  - intros request config exercise of_ Ho. unfold DemoObj.export_exercise.
    destruct exercise as [[]|]; try now apply ObjFacts.Keeps_ret.
    destruct of_; try now apply ObjFacts.Keeps_ret.
    destruct (CourseConfig.exercise_config _ _); now apply ObjFacts.Keeps_ret.
  - intros request config of_ Ho. now apply ObjFacts.Keeps_setitem.
Defined.

Lemma demo_collaborators_read :
  Obj.collaborators_read DemoObj.reverse DemoObj.absolute_uri
    DemoObj.export_exercise DemoObj.export_chapter.
Proof.
  split; [|split; [|split]].
  - intros name args. apply ObjFacts.Reads_ret.
  - intros base location. apply ObjFacts.Reads_ret.
  - intros request config exercise of_. unfold DemoObj.export_exercise.
    destruct exercise as [[]|]; try apply ObjFacts.Reads_ret.
    destruct of_; try apply ObjFacts.Reads_ret.
    destruct (CourseConfig.exercise_config _ _); apply ObjFacts.Reads_ret.
  - intros request config of_. apply ObjFacts.Reads_setitem.
Defined.


